(** * Codex usage checker: a shallow embedding of [usage_checker.py]

    The module inspects the session logs written by the Codex CLI, extracts the
    most recent [token_count] event, caches it per account and renders it as
    text.  Every Python function of [CodexUsageChecker] that the properties
    below talk about is translated here, exceptions included: a Python call
    either returns a value or raises, and [try]/[except] clauses catch by
    exception class. *)

From Stdlib Require Import ZArith Ascii String List Bool Lia DecimalString.
From Stdlib Require Import Floats.PrimFloat Floats.FloatOps Floats.SpecFloat.
From Stdlib Require Import Numbers.Cyclic.Int63.Uint63.
From stdpp Require Import base option list sorting strings gmap.

Set Warnings "-register-all".
Local Open Scope string_scope.
Local Open Scope Z_scope.

(** ** Python values and exceptions *)

(** The values [json.loads] can produce.  A [dict] keeps its insertion order
    ([limits.items()] iterates in that order), hence an association list; the
    decoder never produces a duplicated key. *)
Inductive pyval : Type :=
  | PNone
  | PBool (b : bool)
  | PInt (z : Z)
  | PFloat (f : float)
  | PStr (s : string)
  | PList (l : list pyval)
  | PDict (kv : list (string * pyval)).

(** The exception classes that occur in the module. *)
Inductive exn : Type :=
  | OSError            (* IOError is an alias of OSError *)
  | ValueError         (* also its subclasses UnicodeError and binascii.Error *)
  | JSONDecodeError    (* subclass of ValueError *)
  | TypeError
  | AttributeError
  | KeyError
  | OverflowError      (* an ArithmeticError *)
  | RecursionError.    (* a RuntimeError *)

Definition exn_eqb (a b : exn) : bool :=
  match a, b with
  | OSError, OSError | ValueError, ValueError
  | JSONDecodeError, JSONDecodeError | TypeError, TypeError
  | AttributeError, AttributeError | KeyError, KeyError
  | OverflowError, OverflowError | RecursionError, RecursionError => true
  | _, _ => false
  end.

(** [issubclass e c]. *)
Definition subclass (e c : exn) : bool :=
  exn_eqb e c ||
  match e, c with
  | JSONDecodeError, ValueError => true
  | _, _ => false
  end.

(** The outcome of a Python call. *)
Inductive res (A : Type) : Type :=
  | Ret (a : A)
  | Raise (e : exn).
Arguments Ret {A} a.
Arguments Raise {A} e.

(** Sequencing: an exception of the first statement skips the rest. *)
Definition bind {A B} (m : res A) (k : A → res B) : res B :=
  match m with
  | Ret a => k a
  | Raise e => Raise e
  end.

Declare Scope py_scope.
Delimit Scope py_scope with py.
Notation "x <- m ;; k" := (bind m (fun x => k))
  (at level 100, m at next level, right associativity) : py_scope.
Local Open Scope py_scope.

(** [try: body except (classes): handler]. *)
Definition try_except {A} (body : res A) (classes : list exn) (handler : res A) : res A :=
  match body with
  | Ret a => Ret a
  | Raise e => if existsb (subclass e) classes then handler else Raise e
  end.

Definition returns {A} (r : res A) : Prop := ∃ a, r = Ret a.

(** ** Operations on Python values *)

Fixpoint assoc {A} (k : string) (kv : list (string * A)) : option A :=
  match kv with
  | [] => None
  | (k', v) :: rest => if String.eqb k k' then Some v else assoc k rest
  end.

(** [d[k] = v]: an existing key keeps its position, a new key goes last. *)
Fixpoint dict_set {A} (k : string) (v : A) (kv : list (string * A)) : list (string * A) :=
  match kv with
  | [] => [(k, v)]
  | (k', v') :: rest =>
      if String.eqb k k' then (k, v) :: rest else (k', v') :: dict_set k v rest
  end.

(** [x.get(k, dflt)]; only a dict has the method. *)
Definition py_get (x : pyval) (k : string) (dflt : pyval) : res pyval :=
  match x with
  | PDict kv => Ret (default dflt (assoc k kv))
  | _ => Raise AttributeError
  end.

(** Truth value of an object, as [if x:] and [not x] test it. *)
Definition py_truthy (x : pyval) : bool :=
  match x with
  | PNone => false
  | PBool b => b
  | PInt z => negb (z =? 0)
  | PFloat f => negb (PrimFloat.eqb f 0%float)
  | PStr s => negb (String.eqb s "")
  | PList l => match l with [] => false | _ => true end
  | PDict kv => match kv with [] => false | _ => true end
  end.

(** [x == s] for a string literal [s]. *)
Definition py_eq_str (x : pyval) (s : string) : bool :=
  match x with
  | PStr s' => String.eqb s' s
  | _ => false
  end.

Definition is_substring (k s : string) : bool :=
  match String.index 0 k s with Some _ => true | None => false end.

(** [k in x] for a string [k]: key of a dict, element of a list, substring of
    a string; the other values are not iterable. *)
Definition py_contains (k : string) (x : pyval) : res bool :=
  match x with
  | PDict kv => Ret (bool_decide (is_Some (assoc k kv)))
  | PList l => Ret (existsb (fun v => py_eq_str v k) l)
  | PStr s => Ret (is_substring k s)
  | _ => Raise TypeError
  end.

Definition isinstance_dict (x : pyval) : bool :=
  match x with PDict _ => true | _ => false end.

(** ** Strings *)

Definition nl : string := String (ascii_of_nat 10) "".

(** The ASCII characters [str.strip] removes. *)
Definition is_space (c : ascii) : bool :=
  let n := nat_of_ascii c in
  ((9 <=? n) && (n <=? 13) || (28 <=? n) && (n <=? 32))%nat.

Fixpoint lstrip (s : string) : string :=
  match s with
  | String c rest => if is_space c then lstrip rest else s
  | EmptyString => EmptyString
  end.

Fixpoint rstrip (s : string) : string :=
  match s with
  | String c rest =>
      match rstrip rest with
      | EmptyString => if is_space c then EmptyString else String c EmptyString
      | r => String c r
      end
  | EmptyString => EmptyString
  end.

Definition strip (s : string) : string := rstrip (lstrip s).

(** [s.replace(c, by)] for a one-character pattern. *)
Fixpoint replace_char (c : ascii) (by_ : string) (s : string) : string :=
  match s with
  | String c' rest =>
      if Ascii.eqb c c' then by_ ++ replace_char c by_ rest
      else String c' (replace_char c by_ rest)
  | EmptyString => EmptyString
  end.

(** [s.split(c)] for a one-character separator: never empty. *)
Fixpoint split_char (c : ascii) (s : string) : list string :=
  match s with
  | String c' rest =>
      if Ascii.eqb c c' then EmptyString :: split_char c rest
      else match split_char c rest with
           | hd :: tl => String c' hd :: tl
           | [] => [String c' EmptyString]
           end
  | EmptyString => [EmptyString]
  end.

Fixpoint repeat_string (n : nat) (s : string) : string :=
  match n with
  | O => EmptyString
  | S n' => s ++ repeat_string n' s
  end.

(** ["sep".join(lines)]. *)
Fixpoint join (sep : string) (lines : list string) : string :=
  match lines with
  | [] => EmptyString
  | [l] => l
  | l :: rest => l ++ sep ++ join sep rest
  end.

(** ** The Python runtime

    The standard-library calls the module makes.  They are not code of the
    module, so the development is parametric in them; [Reference] below gives
    one executable instance. *)

(** A [datetime]: naive local time, or carrying a UTC offset; both count
    microseconds on one time line. *)
Inductive datetime : Type :=
  | Naive (us : Z)
  | Aware (us : Z).

(** A number, for the format specifications. *)
Inductive number : Type :=
  | NInt (z : Z)
  | NFloat (f : float).

Class PyRuntime : Type := {
  (** [json.loads(s)] of a text, a line of a log or a cache file, within the
      recursion limit and the limit on the digits of an integer of the
      interpreter; [None] stands for [json.JSONDecodeError]. *)
  json_loads : string → option pyval;
  (** [json.dump(v, f, indent=2, ensure_ascii=False)]: the text written. *)
  json_dumps : pyval → string;
  (** When that [json.dump] raises while it writes [v], on a string with a
      lone surrogate ([UnicodeEncodeError]) or an integer beyond the limit on
      digits, both a [ValueError]: the text written before; [None] when all
      of [json_dumps v] is written. *)
  json_dump_partial : pyval → option string;
  (** [json.loads(b)] of a [bytes] object: besides [JSONDecodeError] it raises
      [UnicodeDecodeError], a [ValueError], and [RecursionError] on input
      nested too deep. *)
  json_loads_bytes : string → res pyval;
  (** [d.isoformat()] of a naive datetime. *)
  isoformat : Z → string;
  (** [datetime.fromisoformat(s)]; [None] stands for [ValueError]. *)
  fromisoformat : string → option datetime;
  (** [d.strftime("%Y-%m-%d %H:%M:%S")]. *)
  strftime_full : Z → string;
  (** [(now + timedelta(seconds=n)).strftime('%H:%M:%S')]: the sum raises
      [OverflowError] out of the range of dates and [ValueError] on a NaN. *)
  strftime_reset : Z → number → res string;
  (** [format(n, ",")]: an integer beyond the limit on digits raises
      [ValueError]. *)
  format_commas : number → res string;
  (** [format(n, ".1f")]: an integer too large for a float raises
      [OverflowError]. *)
  format_fixed1 : number → res string;
  (** [base64.b64decode(s)]; [None] stands for [binascii.Error], a
      [ValueError]. *)
  b64decode : string → option string;
}.

(** ** The session directory

    What the scanner sees of [~/.codex/sessions]: whether it exists, what
    [glob.glob(".../**/rollout-*.jsonl", recursive=True)] lists, and for each
    listed path the outcome of [stat] and of opening and reading it.  A
    modification time is a point of a totally ordered time line. *)
Record session_fs : Type := {
  sessions_dir_exists : bool;
  glob_rollouts : list string;
  stat_mtime : string → res Z;
  readlines : string → res (list string);
}.

(** [for x in xs: r = body(x); if r is not None: return r] followed by
    [return None]. *)
Fixpoint first_hit {A B} (body : A → res (option B)) (xs : list A) : res (option B) :=
  match xs with
  | [] => Ret None
  | x :: rest =>
      r <- body x;;
      match r with
      | Some b => Ret (Some b)
      | None => first_hit body rest
      end
  end.

(** [lines[-n:]]. *)
Definition last_n {A} (n : nat) (l : list A) : list A := drop (length l - n) l.

(** [session_files.sort(key=..., reverse=True)] once the keys are computed:
    a stable sort, largest key first, equal keys in their original order. *)
Fixpoint insert_desc (x : Z * string) (l : list (Z * string)) : list (Z * string) :=
  match l with
  | [] => [x]
  | y :: rest => if y.1 <=? x.1 then x :: y :: rest else y :: insert_desc x rest
  end.

Fixpoint sort_desc (l : list (Z * string)) : list (Z * string) :=
  match l with
  | [] => []
  | x :: rest => insert_desc x (sort_desc rest)
  end.

(** The order of the sorted keys, and the strict one. *)
Definition key_ge (a b : Z * string) : Prop := b.1 ≤ a.1.
Definition key_gt (a b : Z * string) : Prop := b.1 < a.1.

(** The key function applied to every element, in list order; the first
    failure aborts the sort. *)
Fixpoint with_keys (key : string → res Z) (l : list string) : res (list (Z * string)) :=
  match l with
  | [] => Ret []
  | x :: rest => k <- key x;; ks <- with_keys key rest;; Ret ((k, x) :: ks)
  end.

(** ** The cache directory

    The files of the cache directory by path, and the paths on which opening
    fails with an [OSError] (permission denied, name too long, ...). *)
Record cache_fs : Type := {
  cache_files : gmap string string;
  cache_denied : gset string;
}.

(** A path with a NUL character: every call on it raises [ValueError]. *)
Fixpoint has_nul (path : string) : bool :=
  match path with
  | String c rest => (nat_of_ascii c =? 0)%nat || has_nul rest
  | EmptyString => false
  end.

(** [path.exists()]: [False] on a path with a NUL. *)
Definition fs_exists (st : cache_fs) (path : string) : bool :=
  negb (has_nul path) && bool_decide (is_Some (cache_files st !! path)).

(** [open(path, 'r').read()]. *)
Definition fs_read (st : cache_fs) (path : string) : res string :=
  if has_nul path then Raise ValueError else
  if bool_decide (path ∈ cache_denied st) then Raise OSError else
  match cache_files st !! path with
  | Some content => Ret content
  | None => Raise OSError
  end.

(** What the file at [path] holds once [content] was written to it. *)
Definition fs_store (st : cache_fs) (path content : string) : cache_fs :=
  {| cache_files := <[path := content]> (cache_files st);
     cache_denied := cache_denied st |}.

(** [open(path, 'w')]: creates or truncates the file. *)
Definition fs_open_write (st : cache_fs) (path : string) : res cache_fs :=
  if has_nul path then Raise ValueError else
  if bool_decide (path ∈ cache_denied st) then Raise OSError else
  Ret (fs_store st path "").

(** [dir / name]: an absolute [name] replaces [dir]. *)
Definition path_join (dir name : string) : string :=
  match name with
  | String "/" _ => name
  | _ => dir ++ "/" ++ name
  end.

(** [x[k]] for a string [k]. *)
Definition py_getitem (x : pyval) (k : string) : res pyval :=
  match x with
  | PDict kv =>
      match assoc k kv with
      | Some v => Ret v
      | None => Raise KeyError
      end
  | _ => Raise TypeError
  end.

(** The dict [get_usage_summary] builds; its keys are fixed. *)
Record summary : Type := {
  check_time : string;
  status : string;
  token_usage : pyval;
  rate_limits : pyval;
  errors : list string;
}.

Section Checker.
Context `{RT : PyRuntime}.

(** *** [_has_token_count_data] *)

(** The body of the loop: [Some true] is [return True], [None] goes on to
    the next line. *)
Definition has_token_count_line (line : string) : res (option bool) :=
  try_except
    (match json_loads (strip line) with
     | None => Raise JSONDecodeError
     | Some data =>
         payload <- py_get data "payload" (PDict []);;
         ty <- py_get payload "type" PNone;;
         if py_eq_str ty "token_count" then Ret (Some true) else Ret None
     end)
    [JSONDecodeError] (Ret None).

Definition _has_token_count_data (fs : session_fs) (session_file : string) : res bool :=
  try_except
    (lines <- readlines fs session_file;;
     r <- first_hit has_token_count_line (rev (last_n 20 lines));;
     Ret (default false r))
    [OSError; OSError] (Ret false).

(** *** [parse_session_file] *)

Definition parse_line (line : string) : res (option pyval) :=
  try_except
    (match json_loads (strip line) with
     | None => Raise JSONDecodeError
     | Some data =>
         payload <- py_get data "payload" (PDict []);;
         ty <- py_get payload "type" PNone;;
         if py_eq_str ty "token_count" then
           (has_limits <- py_contains "rate_limits" payload;;
            if has_limits : bool then Ret (Some data) else Ret None)
         else Ret None
     end)
    [JSONDecodeError] (Ret None).

Definition parse_session_file (fs : session_fs) (session_file : string) : res (option pyval) :=
  try_except
    (lines <- readlines fs session_file;;
     first_hit parse_line (rev lines))
    [OSError; OSError] (Ret None).

(** *** [find_latest_session_file] *)

(** The loop over [session_files[:10]], with the list of the files it opened:
    [Some f] is [return Path(f)]. *)
Fixpoint probe_loop (fs : session_fs) (cands : list string) : list string * res (option string) :=
  match cands with
  | [] => ([], Ret None)
  | f :: rest =>
      match _has_token_count_data fs f with
      | Ret true => ([f], Ret (Some f))
      | Ret false => let '(probed, r) := probe_loop fs rest in (f :: probed, r)
      | Raise e => ([f], Raise e)
      end
  end.

(** The function together with the files it probed, in order. *)
Definition find_latest_session_file_probing (fs : session_fs)
    : list string * res (option string) :=
  if negb (sessions_dir_exists fs) then ([], Ret None) else
  let session_files := glob_rollouts fs in
  match session_files with
  | [] => ([], Ret None)
  | _ :: _ =>
      match with_keys (stat_mtime fs) session_files with
      | Raise e => ([], Raise e)
      | Ret keyed =>
          let sorted := (sort_desc keyed).*2 in
          let '(probed, r) := probe_loop fs (take 10 sorted) in
          (probed,
           found <- r;;
           match found with
           | Some f => Ret (Some f)
           | None => Ret (head sorted)
           end)
      end
  end.

Definition find_latest_session_file (fs : session_fs) : res (option string) :=
  (find_latest_session_file_probing fs).2.

(** *** The usage cache *)

(** [email.replace('@', '_at_').replace('.', '_').replace('+', '_plus_')]. *)
Definition safe_email (email : string) : string :=
  replace_char "+" "_plus_" (replace_char "." "_" (replace_char "@" "_at_" email)).

(** [self.usage_cache_dir / f"{safe_email}_usage.json"]. *)
Definition cache_file (usage_cache_dir email : string) : string :=
  path_join usage_cache_dir (safe_email email ++ "_usage.json").

Definition day_us : Z := 24 * 3600 * 1000000.

(** [now - last_updated]: a naive and an aware datetime do not subtract. *)
Definition datetime_sub (now : Z) (d : datetime) : res Z :=
  match d with
  | Naive us => Ret (now - us)
  | Aware _ => Raise TypeError
  end.

(** [datetime.fromisoformat(x)]. *)
Definition py_fromisoformat (x : pyval) : res datetime :=
  match x with
  | PStr s =>
      match fromisoformat s with
      | Some d => Ret d
      | None => Raise ValueError
      end
  | _ => Raise TypeError
  end.

Definition py_json_loads (s : string) : res pyval :=
  match json_loads s with
  | Some v => Ret v
  | None => Raise JSONDecodeError
  end.

(** The [except (OSError, IOError)] clause of line 110. *)
Definition save_failed (e : exn) : res bool :=
  if existsb (subclass e) [OSError; OSError] then Ret false else Raise e.

Definition save_usage_data (usage_cache_dir : string) (now : Z)
    (email : string) (usage_data : pyval) (st : cache_fs) : res bool * cache_fs :=
  if String.eqb email "" then (Ret false, st) else
  let path := cache_file usage_cache_dir email in
  let cache_data :=
    PDict [("email", PStr email);
           ("last_updated", PStr (isoformat now));
           ("usage_data", usage_data)] in
  match fs_open_write st path with
  | Raise e => (save_failed e, st)
  | Ret _ =>
      match json_dump_partial cache_data with
      | None => (Ret true, fs_store st path (json_dumps cache_data))
      | Some written => (save_failed ValueError, fs_store st path written)
      end
  end.

Definition load_usage_data (usage_cache_dir : string) (now : Z)
    (email : string) (st : cache_fs) : res pyval :=
  if String.eqb email "" then Ret PNone else
  try_except
    (let path := cache_file usage_cache_dir email in
     if negb (fs_exists st path) then Ret PNone else
     content <- fs_read st path;;
     cache_data <- py_json_loads content;;
     stamp <- py_get cache_data "last_updated" (PStr "");;
     last_updated <- py_fromisoformat stamp;;
     age <- datetime_sub now last_updated;;
     if day_us <? age then Ret PNone else
     py_get cache_data "usage_data" PNone)
    [OSError; OSError; JSONDecodeError; ValueError] (Ret PNone).

(** *** [get_usage_summary] *)

Definition no_session_file_msg : string := "未找到 Codex CLI session 文件".
Definition no_usage_data_msg : string :=
  "未找到有效的用量数据，请先在当前账号下使用 codex 发送消息".

Definition initial_summary (now : Z) : summary :=
  {| check_time := strftime_full now; status := "checking...";
     token_usage := PDict []; rate_limits := PDict []; errors := [] |}.

Definition fail_with (msg : string) (s : summary) : summary :=
  {| check_time := check_time s; status := "failed";
     token_usage := token_usage s; rate_limits := rate_limits s;
     errors := (errors s ++ [msg])%list |}.

(** Lines 160 to 169: the fields taken from the event. *)
Definition fill_summary (token_data : pyval) (s : summary) : res summary :=
  payload <- py_get token_data "payload" (PDict []);;
  info <- py_get payload "info" PNone;;
  has_usage <-
    (if py_truthy info && isinstance_dict info
     then py_contains "total_token_usage" info else Ret false);;
  usage <- (if has_usage : bool then py_getitem info "total_token_usage"
            else Ret (token_usage s));;
  has_limits <- py_contains "rate_limits" payload;;
  limits <- (if has_limits : bool then py_getitem payload "rate_limits"
             else Ret (rate_limits s));;
  Ret {| check_time := check_time s; status := "success";
         token_usage := usage; rate_limits := limits; errors := errors s |}.

(** [now] is the clock when the summary is created, [now_save] when the cache
    entry is written; [email] is [None] or a string. *)
Definition get_usage_summary (usage_cache_dir : string) (now now_save : Z)
    (email : option string) (fs : session_fs) (st : cache_fs) : res summary * cache_fs :=
  let summary := initial_summary now in
  match find_latest_session_file fs with
  | Raise e => (Raise e, st)
  | Ret None => (Ret (fail_with no_session_file_msg summary), st)
  | Ret (Some session_file) =>
      match parse_session_file fs session_file with
      | Raise e => (Raise e, st)
      | Ret token_data =>
          if negb (match token_data with Some d => py_truthy d | None => false end)
          then (Ret (fail_with no_usage_data_msg summary), st)
          else
            match fill_summary (default PNone token_data) summary with
            | Raise e => (Raise e, st)
            | Ret summary' =>
                match email with
                | Some e =>
                    if negb (String.eqb e "") && String.eqb (status summary') "success" then
                      let '(r, st') :=
                        save_usage_data usage_cache_dir now_save e
                          (PDict [("check_time", PStr (check_time summary'));
                                  ("token_usage", token_usage summary');
                                  ("rate_limits", rate_limits summary')]) st in
                      (bind r (fun _ => Ret summary'), st')
                    else (Ret summary', st)
                | None => (Ret summary', st)
                end
            end
      end
  end.

(** *** [format_usage_summary] *)

Definition number_of (v : pyval) : option number :=
  match v with
  | PInt z => Some (NInt z)
  | PBool b => Some (NInt (Z.b2z b))
  | PFloat f => Some (NFloat f)
  | _ => None
  end.

(** A format specification for numbers applied to [v]: a string rejects the
    specification, the other values do not take one. *)
Definition py_format (fmt : number → res string) (v : pyval) : res string :=
  match number_of v with
  | Some n => fmt n
  | None =>
      match v with
      | PStr _ => Raise ValueError
      | _ => Raise TypeError
      end
  end.

(** Line 222, [datetime.now() + timedelta(seconds=v)], with the text line 228
    makes of the sum: raised before the comparison of line 223. *)
Definition py_reset_time (now : Z) (v : pyval) : res string :=
  match number_of v with
  | Some n => strftime_reset now n
  | None => Raise TypeError
  end.

(** [v <= 330]. *)
Definition py_le_330 (v : pyval) : res bool :=
  match v with
  | PInt z => Ret (z <=? 330)
  | PBool b => Ret (Z.b2z b <=? 330)
  | PFloat f => Ret (PrimFloat.leb f 330%float)
  | _ => Raise TypeError
  end.

Definition short_window_label : string := "5小时窗口".
Definition long_window_label : string := "周限制".

(** The body of the loop over [limits.items()]: the lines it appends. *)
Definition format_limit (now : Z) (limit : pyval) : res (list string) :=
  if isinstance_dict limit then
    used_percent <- py_get limit "used_percent" (PInt 0);;
    resets_in_seconds <- py_get limit "resets_in_seconds" (PInt 0);;
    window_minutes <- py_get limit "window_minutes" (PInt 0);;
    reset_time <- py_reset_time now resets_in_seconds;;
    is_short <- py_le_330 window_minutes;;
    let window_type := if is_short : bool then short_window_label else long_window_label in
    used <- py_format format_fixed1 used_percent;;
    Ret ["  🔄 " ++ window_type ++ ":";
         "    已使用: " ++ used ++ "%";
         "    重置时间: " ++ reset_time]
  else Ret [].

Fixpoint format_limits (now : Z) (items : list (string * pyval)) : res (list string) :=
  match items with
  | [] => Ret []
  | (_, limit) :: rest =>
      block <- format_limit now limit;;
      blocks <- format_limits now rest;;
      Ret (block ++ blocks)%list
  end.

(** [limits.items()]. *)
Definition py_items (x : pyval) : res (list (string * pyval)) :=
  match x with
  | PDict kv => Ret kv
  | _ => Raise AttributeError
  end.

Definition format_header (s : summary) : list string :=
  ["Codex CLI 用量查询";
   "查询时间: " ++ check_time s;
   "状态: " ++ status s;
   repeat_string 50 "-"].

Definition format_token_usage (usage : pyval) : res (list string) :=
  input <- bind (py_get usage "input_tokens" (PInt 0)) (py_format format_commas);;
  cached <- bind (py_get usage "cached_input_tokens" (PInt 0)) (py_format format_commas);;
  output <- bind (py_get usage "output_tokens" (PInt 0)) (py_format format_commas);;
  total <- bind (py_get usage "total_tokens" (PInt 0)) (py_format format_commas);;
  Ret [nl ++ "📊 Token 使用情况:";
       "  输入 tokens: " ++ input;
       "  缓存 tokens: " ++ cached;
       "  输出 tokens: " ++ output;
       "  总计 tokens: " ++ total].

(** The clock is read once per window; the readings are taken equal, [now]. *)
Definition format_usage_summary (now : Z) (s : summary) : res string :=
  let lines := format_header s in
  if String.eqb (status s) "failed" then
    Ret (join nl
      (lines ++ ["❌ 查询失败:"] ++ map (fun error => ("  - " ++ error)%string) (errors s) ++
       [(nl ++ "💡 提示:")%string;
        "  - 请确保已经使用过 Codex CLI";
        "  - 尝试运行 'codex' 命令并发送一条消息"])%list)
  else
    usage_lines <-
      (if py_truthy (token_usage s) then format_token_usage (token_usage s) else Ret []);;
    limit_lines <-
      (if py_truthy (rate_limits s) then
         items <- py_items (rate_limits s);;
         blocks <- format_limits now items;;
         Ret ((nl ++ "⏰ 速率限制:") :: blocks)
       else Ret []);;
    Ret (join nl (lines ++ usage_lines ++ limit_lines)%list).

(** *** [extract_email_from_auth] *)

(** [x.split(".")]; only a string has the method. *)
Definition py_split_dot (x : pyval) : res (list string) :=
  match x with
  | PStr s => Ret (split_char "." s)
  | _ => Raise AttributeError
  end.

(** [payload += "=" * (4 - len(payload) % 4)]. *)
Definition pad_base64 (payload : string) : string :=
  payload ++ repeat_string (4 - String.length payload mod 4) "=".

Definition py_b64decode (s : string) : res string :=
  match b64decode s with
  | Some bytes => Ret bytes
  | None => Raise ValueError
  end.

(** Falling out of the [try] statements reaches [return None]. *)
Definition extract_email_from_auth (auth_data : pyval) : res pyval :=
  try_except
    (tokens <- py_get auth_data "tokens" (PDict []);;
     id_token <- py_get tokens "id_token" (PStr "");;
     if py_truthy id_token then
       parts <- py_split_dot id_token;;
       if (2 <=? length parts)%nat then
         let payload := pad_base64 (nth 1 parts "") in
         try_except
           (decoded <- py_b64decode payload;;
            token_data <- json_loads_bytes decoded;;
            py_get token_data "email" PNone)
           [ValueError; JSONDecodeError] (Ret PNone)
       else Ret PNone
     else Ret PNone)
    [KeyError; TypeError; AttributeError] (Ret PNone).

End Checker.

(** ** The compatibility layer *)

Section Compat.
Context `{RT : PyRuntime}.

(** The dict [OpenAIUsageChecker.get_account_summary] builds. *)
Record account_summary : Type := {
  acc_email : string;
  acc_check_time : string;
  acc_status : string;
  acc_usage_data : pyval;
  acc_rate_limits : pyval;
  acc_errors : list string;
}.

(** [email or "Codex CLI"]. *)
Definition email_or_default (email : option string) : string :=
  match email with
  | Some e => if String.eqb e "" then "Codex CLI" else e
  | None => "Codex CLI"
  end.

Definition get_account_summary (usage_cache_dir : string) (now now_save : Z)
    (email : option string) (fs : session_fs) (st : cache_fs)
    : res account_summary * cache_fs :=
  let '(r, st') := get_usage_summary usage_cache_dir now now_save email fs st in
  (summary <- r;;
   Ret {| acc_email := email_or_default email;
          acc_check_time := check_time summary;
          acc_status := status summary;
          acc_usage_data := token_usage summary;
          acc_rate_limits := rate_limits summary;
          acc_errors := errors summary |},
   st').

(** [extract_access_token_from_auth]: its [except] clause names [KeyError]
    and [TypeError] only. *)
Definition extract_access_token_from_auth (auth_data : pyval) : res pyval :=
  try_except
    (tokens <- py_get auth_data "tokens" (PDict []);;
     py_get tokens "access_token" PNone)
    [KeyError; TypeError] (Ret PNone).

End Compat.

(** ** A reference runtime

    An executable instance of [PyRuntime] for the examples.  It implements
    the calls on the fragment the examples use: JSON without unicode escapes
    and with numbers of at most fifteen digits (another text is rejected;
    the encoder writes every float as [NaN]), ISO timestamps as [isoformat]
    prints them, with an optional UTC offset, and base64 as
    [binascii.a2b_base64] decodes it when not in strict mode. *)
Module Reference.

(** *** JSON *)

Definition dquote : ascii := ascii_of_nat 34.

Definition is_json_ws (c : ascii) : bool :=
  let n := nat_of_ascii c in
  ((n =? 32) || (n =? 9) || (n =? 10) || (n =? 13))%nat.

Fixpoint skip_ws (s : string) : string :=
  match s with
  | String c rest => if is_json_ws c then skip_ws rest else s
  | EmptyString => EmptyString
  end.

Definition digit_of (c : ascii) : option Z :=
  let n := nat_of_ascii c in
  if ((48 <=? n) && (n <=? 57))%nat then Some (Z.of_nat n - 48) else None.

(** The digits at the head of [s], as a number continuing [acc], their count
    and the rest. *)
Fixpoint scan_digits (s : string) (acc : Z) (count : nat) : Z * nat * string :=
  match s with
  | String c rest =>
      match digit_of c with
      | Some d => scan_digits rest (10 * acc + d) (S count)
      | None => (acc, count, s)
      end
  | EmptyString => (acc, count, s)
  end.

Definition unescape (c : ascii) : option ascii :=
  if Ascii.eqb c dquote then Some dquote else
  match c with
  | "\"%char => Some "\"%char
  | "/"%char => Some "/"%char
  | "b"%char => Some (ascii_of_nat 8)
  | "f"%char => Some (ascii_of_nat 12)
  | "n"%char => Some (ascii_of_nat 10)
  | "r"%char => Some (ascii_of_nat 13)
  | "t"%char => Some (ascii_of_nat 9)
  | _ => None
  end.

(** A string literal after its opening quote: the string and the rest. *)
Fixpoint scan_string (s : string) : option (string * string) :=
  match s with
  | EmptyString => None
  | String c rest =>
      if Ascii.eqb c dquote then Some (EmptyString, rest)
      else if Ascii.eqb c "\" then
        match rest with
        | String e rest' =>
            match unescape e, scan_string rest' with
            | Some c', Some (str, r) => Some (String c' str, r)
            | _, _ => None
            end
        | EmptyString => None
        end
      else if (nat_of_ascii c <? 32)%nat then None
      else
        match scan_string rest with
        | Some (str, r) => Some (String c str, r)
        | None => None
        end
  end.

(** [m * 10 ^ e] as a float, where one correctly rounded operation gives it:
    at most fifteen digits and a power of ten up to [10 ^ 22]. *)
Definition float_of_Z (z : Z) : float := PrimFloat.of_uint63 (Uint63.of_Z z).

Definition decimal_float (m e : Z) : option float :=
  if (m <? 10 ^ 15) && (Z.abs e <=? 22) then
    Some (if 0 <=? e then PrimFloat.mul (float_of_Z m) (float_of_Z (10 ^ e))
          else PrimFloat.div (float_of_Z m) (float_of_Z (10 ^ (- e))))
  else None.

(** A number literal: an optional minus sign, then a zero or a non-empty run
    of digits without a leading zero; a fraction or an exponent makes it a
    float. *)
Definition scan_number (s : string) : option (pyval * string) :=
  let '(neg, body) :=
    match s with
    | String "-" rest => (true, rest)
    | _ => (false, s)
    end in
  '(n, r1) ←
    match body with
    | String "0" rest => Some (0, rest)
    | _ => let '(n, count, rest) := scan_digits body 0 0 in
           if (count =? 0)%nat then None else Some (n, rest)
    end;
  '(m, scale, is_float, r2) ←
    match r1 with
    | String "." rest =>
        let '(m, count, rest') := scan_digits rest n 0 in
        if (count =? 0)%nat then None else Some (m, - Z.of_nat count, true, rest')
    | _ => Some (n, 0, false, r1)
    end;
  '(e, is_float', r3) ←
    match r2 with
    | String exp rest =>
        if Ascii.eqb exp "e" || Ascii.eqb exp "E" then
          let '(eneg, digits) :=
            match rest with
            | String "-" rest' => (true, rest')
            | String "+" rest' => (false, rest')
            | _ => (false, rest)
            end in
          let '(e, count, rest') := scan_digits digits 0 0 in
          if (count =? 0)%nat then None
          else Some (if eneg : bool then - e else e, true, rest')
        else Some (0, is_float, r2)
    | EmptyString => Some (0, is_float, r2)
    end;
  if is_float' : bool then
    f ← decimal_float m (scale + e);
    Some (PFloat (if neg : bool then PrimFloat.opp f else f), r3)
  else Some (PInt (if neg : bool then - n else n), r3).

Definition scan_literal (lit : string) (v : pyval) (s : string) : option (pyval * string) :=
  if String.prefix lit s
  then Some (v, String.substring (String.length lit) (String.length s - String.length lit) s)
  else None.

Fixpoint decode_value (fuel : nat) (s : string) {struct fuel} : option (pyval * string) :=
  match fuel with
  | O => None
  | S fuel' =>
      match skip_ws s with
      | String "{" r =>
          match skip_ws r with
          | String "}" r' => Some (PDict [], r')
          | r0 => decode_members fuel' [] r0
          end
      | String "[" r =>
          match skip_ws r with
          | String "]" r' => Some (PList [], r')
          | r0 => decode_elements fuel' [] r0
          end
      | String "t" _ as s' => scan_literal "true" (PBool true) s'
      | String "f" _ as s' => scan_literal "false" (PBool false) s'
      | String "n" _ as s' => scan_literal "null" PNone s'
      | String c r as s' =>
          if Ascii.eqb c dquote then
            match scan_string r with
            | Some (str, r') => Some (PStr str, r')
            | None => None
            end
          else
            scan_number s'
      | EmptyString => None
      end
  end
with decode_members (fuel : nat) (acc : list (string * pyval)) (s : string) {struct fuel}
    : option (pyval * string) :=
  match fuel with
  | O => None
  | S fuel' =>
      match skip_ws s with
      | String c r =>
          if negb (Ascii.eqb c dquote) then None else
          match scan_string r with
          | Some (k, r1) =>
              match skip_ws r1 with
              | String ":" r2 =>
                  match decode_value fuel' r2 with
                  | Some (v, r3) =>
                      match skip_ws r3 with
                      | String "," r4 => decode_members fuel' (dict_set k v acc) r4
                      | String "}" r4 => Some (PDict (dict_set k v acc), r4)
                      | _ => None
                      end
                  | None => None
                  end
              | _ => None
              end
          | None => None
          end
      | EmptyString => None
      end
  end
with decode_elements (fuel : nat) (acc : list pyval) (s : string) {struct fuel}
    : option (pyval * string) :=
  match fuel with
  | O => None
  | S fuel' =>
      match decode_value fuel' s with
      | Some (v, r) =>
          match skip_ws r with
          | String "," r' => decode_elements fuel' (acc ++ [v])%list r'
          | String "]" r' => Some (PList (acc ++ [v])%list, r')
          | _ => None
          end
      | None => None
      end
  end.

Definition loads (s : string) : option pyval :=
  match decode_value (2 * String.length s + 2) s with
  | Some (v, rest) =>
      match skip_ws rest with
      | EmptyString => Some v
      | _ => None
      end
  | None => None
  end.

(** The examples write a JSON text with ['] for the double quote. *)
Definition dq (s : string) : string := replace_char "'" (String dquote "") s.

Definition string_of_Z (z : Z) : string := NilZero.string_of_int (Z.to_int z).

Definition hex_digit (n : nat) : ascii :=
  ascii_of_nat (if (n <? 10)%nat then 48 + n else 87 + n).

Definition escape_char (c : ascii) : string :=
  let n := nat_of_ascii c in
  if Ascii.eqb c dquote then String "\" (String dquote "")
  else if Ascii.eqb c "\" then "\\"
  else if (n =? 10)%nat then "\n"
  else if (n =? 13)%nat then "\r"
  else if (n =? 9)%nat then "\t"
  else if (n =? 8)%nat then "\b"
  else if (n =? 12)%nat then "\f"
  else if (n <? 32)%nat
  then "\u00" ++ String (hex_digit (n / 16)) (String (hex_digit (n mod 16)) "")
  else String c "".

Fixpoint escape (s : string) : string :=
  match s with
  | String c rest => escape_char c ++ escape rest
  | EmptyString => EmptyString
  end.

Definition quote (s : string) : string :=
  String dquote (escape s ++ String dquote "").

(** [json.dumps(v, indent=2, ensure_ascii=False)] at nesting depth
    [indent / 2]. *)
Fixpoint encode (indent : nat) (v : pyval) : string :=
  let inner := repeat_string (indent + 2) " " in
  match v with
  | PNone => "null"
  | PBool true => "true"
  | PBool false => "false"
  | PInt z => string_of_Z z
  | PFloat _ => "NaN"
  | PStr s => quote s
  | PList [] => "[]"
  | PList l =>
      "[" ++ nl ++
      join ("," ++ nl) (map (fun x => inner ++ encode (indent + 2) x) l) ++
      nl ++ repeat_string indent " " ++ "]"
  | PDict [] => "{}"
  | PDict kv =>
      "{" ++ nl ++
      join ("," ++ nl)
        (map (fun '(k, x) => inner ++ quote k ++ ": " ++ encode (indent + 2) x) kv) ++
      nl ++ repeat_string indent " " ++ "}"
  end.

Definition dumps (v : pyval) : string := encode 0 v.

(** *** Dates: microseconds since 1970-01-01T00:00:00 *)

Definition days_from_civil (y m d : Z) : Z :=
  let y' := if m <=? 2 then y - 1 else y in
  let era := y' / 400 in
  let yoe := y' - era * 400 in
  let doy := (153 * (if 2 <? m then m - 3 else m + 9) + 2) / 5 + d - 1 in
  let doe := yoe * 365 + yoe / 4 - yoe / 100 + doy in
  era * 146097 + doe - 719468.

Definition civil_from_days (days : Z) : Z * Z * Z :=
  let z := days + 719468 in
  let era := z / 146097 in
  let doe := z - era * 146097 in
  let yoe := (doe - doe / 1460 + doe / 36524 - doe / 146096) / 365 in
  let doy := doe - (365 * yoe + yoe / 4 - yoe / 100) in
  let mp := (5 * doy + 2) / 153 in
  let d := doy - (153 * mp + 2) / 5 + 1 in
  let m := if mp <? 10 then mp + 3 else mp - 9 in
  (yoe + era * 400 + (if m <=? 2 then 1 else 0), m, d).

Definition second_us : Z := 1000000.

(** A non-negative number in [width] digits. *)
Definition pad (width : nat) (n : Z) : string :=
  let digits := string_of_Z n in
  repeat_string (width - String.length digits) "0" ++ digits.

Definition date_text (us : Z) : string :=
  let '(y, m, d) := civil_from_days (us / day_us) in
  pad 4 y ++ "-" ++ pad 2 m ++ "-" ++ pad 2 d.

Definition time_text (us : Z) : string :=
  let secs := (us mod day_us) / second_us in
  pad 2 (secs / 3600) ++ ":" ++ pad 2 (secs / 60 mod 60) ++ ":" ++ pad 2 (secs mod 60).

Definition isoformat_us (us : Z) : string :=
  date_text us ++ "T" ++ time_text us ++
  (if us mod second_us =? 0 then "" else "." ++ pad 6 (us mod second_us)).

Definition strftime_full_us (us : Z) : string := date_text us ++ " " ++ time_text us.

(** Exactly [n] digits at the head of [s]. *)
Definition take_digits (n : nat) (s : string) : option (Z * string) :=
  let '(v, count, rest) := scan_digits (String.substring 0 n s) 0 0 in
  if ((count =? n) && (String.length rest =? 0))%nat
  then Some (v, String.substring n (String.length s - n) s)
  else None.

Definition days_in_month (y m : Z) : Z :=
  days_from_civil (if m =? 12 then y + 1 else y) (if m =? 12 then 1 else m + 1) 1
  - days_from_civil y m 1.

Definition expect (c : ascii) (s : string) : option string :=
  match s with
  | String c' rest => if Ascii.eqb c c' then Some rest else None
  | EmptyString => None
  end.

(** The UTC offset at the end of a timestamp, in microseconds. *)
Definition parse_offset (s : string) : option Z :=
  match s with
  | String sign rest =>
      if Ascii.eqb sign "+" || Ascii.eqb sign "-" then
        '(hh, r1) ← take_digits 2 rest;
        r2 ← expect ":" r1;
        '(mm, r3) ← take_digits 2 r2;
        if (String.length r3 =? 0)%nat && (hh <? 24) && (mm <? 60)
        then Some ((if Ascii.eqb sign "-" then -1 else 1) * (hh * 3600 + mm * 60) * second_us)
        else None
      else None
  | EmptyString => None
  end.

(** [YYYY-MM-DD], alone or followed by [T] or a space and [HH:MM:SS], an
    optional [.ffffff] and an optional [+HH:MM] or [-HH:MM]. *)
Definition fromisoformat_us (s : string) : option datetime :=
  '(y, r1) ← take_digits 4 s;
  r2 ← expect "-" r1;
  '(m, r3) ← take_digits 2 r2;
  r4 ← expect "-" r3;
  '(d, r5) ← take_digits 2 r4;
  if negb ((1 <=? y) && (1 <=? m) && (m <=? 12) && (1 <=? d) && (d <=? days_in_month y m))
  then None else
  let midnight := days_from_civil y m d * day_us in
  match r5 with
  | EmptyString => Some (Naive midnight)
  | String sep r6 =>
      if negb (Ascii.eqb sep "T" || Ascii.eqb sep " ") then None else
      '(hh, r7) ← take_digits 2 r6;
      r8 ← expect ":" r7;
      '(mm, r9) ← take_digits 2 r8;
      r10 ← expect ":" r9;
      '(ss, r11) ← take_digits 2 r10;
      if negb ((hh <? 24) && (mm <? 60) && (ss <? 60)) then None else
      '(frac, r12) ←
        match r11 with
        | String "." r => take_digits 6 r
        | _ => Some (0, r11)
        end;
      let us := midnight + (hh * 3600 + mm * 60 + ss) * second_us + frac in
      match r12 with
      | EmptyString => Some (Naive us)
      | _ => offset ← parse_offset r12; Some (Aware (us - offset))
      end
  end.

(** *** Number formats *)

Fixpoint group3 (digits : list ascii) : string :=
  match digits with
  | a :: b :: c :: (_ :: _) as rest => String a (String b (String c ("," ++ group3 rest)))
  | _ => string_of_list_ascii digits
  end.

(** A run of digits with a comma before every group of three from the
    right. *)
Definition commas (digits : string) : string :=
  let l := list_ascii_of_string digits in
  let lead := (length l mod 3)%nat in
  match take lead l, drop lead l with
  | [], rest => group3 rest
  | first, [] => string_of_list_ascii first
  | first, rest => string_of_list_ascii first ++ "," ++ group3 rest
  end.

Definition commas_Z (z : Z) : string :=
  (if z <? 0 then "-" else "") ++ commas (string_of_Z (Z.abs z)).

(** [n / d] rounded to the nearest integer, ties to even; [d > 0]. *)
Definition round_half_even (n d : Z) : Z :=
  let q := n / d in
  let r := n mod d in
  if 2 * r <? d then q
  else if d <? 2 * r then q + 1
  else if Z.even q then q else q + 1.

(** [|f| * scale] rounded to an integer, and the sign of [f]; [None] for an
    infinity or a NaN. *)
Definition scaled (scale : Z) (f : float) : option (bool * Z) :=
  match Prim2SF f with
  | S754_zero s => Some (s, 0)
  | S754_finite s m e =>
      Some (s, if 0 <=? e then scale * Z.pos m * 2 ^ e
               else round_half_even (scale * Z.pos m) (2 ^ (- e)))
  | _ => None
  end.

Definition fixed1_tenths (neg : bool) (tenths : Z) : string :=
  (if neg : bool then "-" else "") ++ string_of_Z (tenths / 10) ++ "." ++ string_of_Z (tenths mod 10).

(** The text of an infinity or a NaN. *)
Definition special_text (f : float) : string :=
  match Prim2SF f with
  | S754_infinity s => if s then "-inf" else "inf"
  | _ => "nan"
  end.

(** The integers that round to a float: below [2^1024 - 2^970] in absolute
    value. *)
Definition float_range (z : Z) : bool := Z.abs z <? 2 ^ 1024 - 2 ^ 970.

Definition fixed1 (n : number) : res string :=
  match n with
  | NInt z =>
      if float_range z then Ret (fixed1_tenths (z <? 0) (10 * Z.abs z))
      else Raise OverflowError
  | NFloat f =>
      match scaled 10 f with
      | Some (neg, tenths) => Ret (fixed1_tenths neg tenths)
      | None => Ret (special_text f)
      end
  end.

(** [sys.get_int_max_str_digits()]. *)
Definition int_max_str_digits : Z := 4300.

(** An integer with more digits than the limit raises [ValueError]; a float
    is shown with one decimal. *)
Definition with_commas (n : number) : res string :=
  match n with
  | NInt z =>
      if Z.abs z <? 10 ^ int_max_str_digits then Ret (commas_Z z)
      else Raise ValueError
  | NFloat f =>
      match scaled 10 f with
      | Some (neg, tenths) =>
          Ret ((if neg : bool then "-" else "") ++ commas (string_of_Z (tenths / 10)) ++
               "." ++ string_of_Z (tenths mod 10))
      | None => Ret (special_text f)
      end
  end.

(** The microseconds of [timedelta(seconds=n)]: a NaN raises [ValueError],
    an infinity [OverflowError]. *)
Definition timedelta_us (n : number) : res Z :=
  match n with
  | NInt z => Ret (z * second_us)
  | NFloat f =>
      match scaled second_us f with
      | Some (neg, us) => Ret (if neg : bool then - us else us)
      | None =>
          match Prim2SF f with
          | S754_nan => Raise ValueError
          | _ => Raise OverflowError
          end
      end
  end.

(** The timestamps of the years 1 to 9999. *)
Definition min_us : Z := days_from_civil 1 1 1 * 86400 * second_us.
Definition max_us : Z := days_from_civil 10000 1 1 * 86400 * second_us.

(** A sum outside the years 1 to 9999 raises [OverflowError]; so does a
    duration beyond 999999999 days, which leaves that range from any [now]
    within it. *)
Definition reset_text (now : Z) (n : number) : res string :=
  delta <- timedelta_us n;;
  if (min_us <=? now + delta) && (now + delta <? max_us)
  then Ret (time_text (now + delta))
  else Raise OverflowError.

(** *** Base64 *)

Definition b64_value (c : ascii) : option Z :=
  let n := nat_of_ascii c in
  if ((65 <=? n) && (n <=? 90))%nat then Some (Z.of_nat n - 65)
  else if ((97 <=? n) && (n <=? 122))%nat then Some (Z.of_nat n - 71)
  else if ((48 <=? n) && (n <=? 57))%nat then Some (Z.of_nat n + 4)
  else if (n =? 43)%nat then Some 62
  else if (n =? 47)%nat then Some 63
  else None.

Definition byte_of (z : Z) : ascii := ascii_of_nat (Z.to_nat (Z.land z 255)).

(** The decoding loop: [quad_pos] is the position in the current group of
    four, [leftchar] the bits not yet written, [pads] the padding characters
    seen since the last digit. *)
Fixpoint a2b_base64 (s : string) (quad_pos : nat) (leftchar : Z) (pads : nat) : option string :=
  match s with
  | EmptyString => if (quad_pos =? 0)%nat then Some EmptyString else None
  | String c rest =>
      if Ascii.eqb c "=" then
        if (2 <=? quad_pos)%nat then
          if (4 <=? quad_pos + S pads)%nat then Some EmptyString
          else a2b_base64 rest quad_pos leftchar (S pads)
        else a2b_base64 rest quad_pos leftchar pads
      else
        match b64_value c with
        | None => a2b_base64 rest quad_pos leftchar pads
        | Some d =>
            match quad_pos with
            | 0%nat => a2b_base64 rest 1 d 0
            | 1%nat =>
                String (byte_of (Z.lor (Z.shiftl leftchar 2) (Z.shiftr d 4))) <$>
                a2b_base64 rest 2 (Z.land d 15) 0
            | 2%nat =>
                String (byte_of (Z.lor (Z.shiftl leftchar 4) (Z.shiftr d 2))) <$>
                a2b_base64 rest 3 (Z.land d 3) 0
            | _ =>
                String (byte_of (Z.lor (Z.shiftl leftchar 6) d)) <$>
                a2b_base64 rest 0 0 0
            end
        end
  end.

Fixpoint is_ascii_string (s : string) : bool :=
  match s with
  | String c rest => (nat_of_ascii c <? 128)%nat && is_ascii_string rest
  | EmptyString => true
  end.

Definition b64decode_ascii (s : string) : option string :=
  if is_ascii_string s then a2b_base64 s 0 0 0 else None.

(** *** JSON from bytes *)

(** Well-formed UTF-8, surrogates passed: [pending] continuation bytes are
    due, the next of them between [lo] and [hi]. *)
Fixpoint utf8_valid (s : string) (pending lo hi : nat) : bool :=
  match s with
  | EmptyString => (pending =? 0)%nat
  | String c rest =>
      let n := nat_of_ascii c in
      match pending with
      | O =>
          if (n <? 128)%nat then utf8_valid rest 0 128 191
          else if ((194 <=? n) && (n <=? 223))%nat then utf8_valid rest 1 128 191
          else if (n =? 224)%nat then utf8_valid rest 2 160 191
          else if ((225 <=? n) && (n <=? 239))%nat then utf8_valid rest 2 128 191
          else if (n =? 240)%nat then utf8_valid rest 3 144 191
          else if ((241 <=? n) && (n <=? 243))%nat then utf8_valid rest 3 128 191
          else if (n =? 244)%nat then utf8_valid rest 3 128 143
          else false
      | S p => ((lo <=? n) && (n <=? hi))%nat && utf8_valid rest p 128 191
      end
  end.

(** The arrays a text opens before anything else. *)
Fixpoint opening_arrays (s : string) : nat :=
  match s with
  | String c rest =>
      if Ascii.eqb c "[" then S (opening_arrays rest)
      else if is_json_ws c then opening_arrays rest
      else O
  | EmptyString => O
  end.

(** The nesting the scanner does not reach: [sys.getrecursionlimit()]. *)
Definition recursion_limit : nat := 1000.

(** [json.loads] of bytes in UTF-8 (no byte-order mark, no NUL byte): bytes
    that are not UTF-8 raise [UnicodeDecodeError]; a text that opens
    [recursion_limit] arrays or more exhausts the recursion limit before the
    scanner reads anything else. *)
Definition loads_bytes (s : string) : res pyval :=
  if negb (utf8_valid s 0 128 191) then Raise ValueError
  else if (recursion_limit <=? opening_arrays s)%nat then Raise RecursionError
  else match loads s with
       | Some v => Ret v
       | None => Raise JSONDecodeError
       end.

(** [text.split("\n")]. *)
Definition lines_of (text : string) : list string := split_char (ascii_of_nat 10) text.

#[export] Instance runtime : PyRuntime := {|
  json_loads := loads;
  json_dumps := dumps;
  json_dump_partial := fun _ => None;
  json_loads_bytes := loads_bytes;
  isoformat := isoformat_us;
  fromisoformat := fromisoformat_us;
  strftime_full := strftime_full_us;
  strftime_reset := reset_text;
  format_commas := with_commas;
  format_fixed1 := fixed1;
  b64decode := b64decode_ascii;
|}.

End Reference.

(** A session directory given by its files: path, outcome of [stat] and
    outcome of opening and reading. *)
Definition session_dir (files : list (string * (res Z * res (list string)))) : session_fs :=
  {| sessions_dir_exists := true;
     glob_rollouts := files.*1;
     stat_mtime := fun path =>
       match assoc path files with
       | Some (mtime, _) => mtime
       | None => Raise OSError
       end;
     readlines := fun path =>
       match assoc path files with
       | Some (_, content) => content
       | None => Raise OSError
       end |}.

(** An absent session directory. *)
Definition no_session_dir : session_fs :=
  {| sessions_dir_exists := false;
     glob_rollouts := [];
     stat_mtime := fun _ => Raise OSError;
     readlines := fun _ => Raise OSError |}.

Definition empty_cache : cache_fs := {| cache_files := ∅; cache_denied := ∅ |}.

(** ** Example inputs, on the reference runtime *)

Module Demo.
Import Reference.

Definition line_a : string :=
  dq "{'payload': {'type': 'token_count', 'rate_limits': {'primary': {'used_percent': 10, 'window_minutes': 300}}}}" ++ nl.
Definition line_b : string :=
  dq "{'payload': {'type': 'token_count', 'rate_limits': {'primary': {'used_percent': 20, 'window_minutes': 300}}}}" ++ nl.
Definition line_other : string :=
  dq "{'payload': {'type': 'agent_message'}}" ++ nl.
Definition line_garbage : string := "not json" ++ nl.
(** A usage event without rate limits. *)
Definition line_tag_only : string :=
  dq "{'payload': {'type': 'token_count', 'info': null}}" ++ nl.
(** A JSON text that is not an object. *)
Definition line_number : string := "42" ++ nl.

Definition record_b : pyval :=
  PDict [("payload",
          PDict [("type", PStr "token_count");
                 ("rate_limits",
                  PDict [("primary",
                          PDict [("used_percent", PInt 20);
                                 ("window_minutes", PInt 300)])])])].

Definition two_snapshots : list string := [line_garbage; line_a; line_b; line_other].

Definition two_snapshots_dir : session_fs :=
  session_dir [("rollout-a.jsonl", (Ret 100, Ret two_snapshots))].

(** Three logs; by age: b, c, a.  Only c ends in a usage event. *)
Definition three_logs_dir : session_fs :=
  session_dir [("rollout-a.jsonl", (Ret 100, Ret [line_a; line_other; line_garbage]));
               ("rollout-b.jsonl", (Ret 300, Ret [line_other]));
               ("rollout-c.jsonl", (Ret 200, Ret [line_garbage; line_b]))].

Definition three_logs_mtime (path : string) : Z :=
  match stat_mtime three_logs_dir path with
  | Ret mtime => mtime
  | Raise _ => 0
  end.

(** Twelve logs, [rollout-01] the oldest; only [rollout-02] holds a usage
    event. *)
Definition twelve_logs_dir : session_fs :=
  session_dir
    ((fun n => ("rollout-" ++ pad 2 n ++ ".jsonl",
                (Ret n, Ret [if n =? 2 then line_a else line_other])))
     <$> seqZ 1 12).

(** A log that [glob] lists and [stat] does not find: a dangling symbolic
    link, or a file removed in between. *)
Definition dangling_dir : session_fs :=
  session_dir [("rollout-a.jsonl", (Raise OSError, Raise OSError))].

(** A log whose last line is a JSON number. *)
(** Three listed logs, the second removed before the sort. *)
Definition removed_dir : session_fs :=
  session_dir [("rollout-a.jsonl", (Ret 100, Ret [line_a]));
               ("rollout-b.jsonl", (Raise OSError, Raise OSError));
               ("rollout-c.jsonl", (Ret 300, Ret [line_b]))].

Definition number_dir : session_fs :=
  session_dir [("rollout-a.jsonl", (Ret 100, Ret [line_a; line_number]))].

(** A log whose only usage event has no rate limits. *)
Definition tag_only_dir : session_fs :=
  session_dir [("rollout-a.jsonl", (Ret 100, Ret [line_other; line_tag_only]))].

(** A snapshot, and the cache after it was stored for [user@x.com] on
    2024-05-01 at noon. *)
Definition snapshot : pyval :=
  PDict [("check_time", PStr "2024-05-01 12:00:00");
         ("token_usage", PDict [("input_tokens", PInt 100); ("total_tokens", PInt 150)]);
         ("rate_limits", PDict [("primary", PDict [("used_percent", PInt 42);
                                                 ("window_minutes", PInt 300)])])].

Definition noon : Z := 1714564800000000.
Definition hour_us : Z := 3600 * second_us.

Definition stored_cache : cache_fs :=
  (save_usage_data "cache" noon "user@x.com" snapshot empty_cache).2.

(** The same cache when its file cannot be opened. *)
Definition denied_cache : cache_fs :=
  {| cache_files := cache_files stored_cache;
     cache_denied := {[ cache_file "cache" "user@x.com" ]} |}.

(** An identity with a NUL character. *)
Definition nul_identity : string := "a" ++ String (ascii_of_nat 0) "b@x.com".

(** A cache entry of the same hour without [usage_data]. *)
Definition bare_cache : cache_fs :=
  {| cache_files :=
       {[ cache_file "cache" "user@x.com" :=
            dq "{'email': 'user@x.com', 'last_updated': '2024-05-01T12:00:00'}" ]};
     cache_denied := ∅ |}.

(** A summary with a five-hour window and a weekly one. *)
Definition five_hours : list (string * pyval) :=
  [("used_percent", PInt 42); ("resets_in_seconds", PInt 3600);
   ("window_minutes", PInt 300)].
Definition weekly : list (string * pyval) :=
  [("used_percent", PInt 7); ("resets_in_seconds", PInt 86400);
   ("window_minutes", PInt 10080)].

Definition both_windows : summary :=
  {| check_time := "2024-05-01 12:00:00"; status := "success";
     token_usage := PDict [("input_tokens", PInt 100); ("total_tokens", PInt 1500)];
     rate_limits := PDict [("primary", PDict five_hours); ("secondary", PDict weekly)];
     errors := [] |}.

Definition both_windows_text : string :=
  match format_usage_summary noon both_windows with
  | Ret text => text
  | Raise _ => ""
  end.

(** An auth structure whose token carries the claims [{"email": "a@b.c"}]. *)
Definition auth : pyval :=
  PDict [("tokens", PDict [("id_token", PStr "h.eyJlbWFpbCI6ICJhQGIuYyJ9.s")])].

(** The end-to-end scenario of the specification: one log, one usage
    event. *)
(** A token whose second segment has 23 characters: it decodes only once
    one [=] is appended. *)
Definition auth_unpadded : pyval :=
  PDict [("tokens", PDict [("id_token", PStr "h.eyJlbWFpbCI6ImFAYi5jIn0.s")])].

(** A token whose second segment is the base64 text of three thousand
    opening brackets. *)
Definition nested_auth : pyval :=
  PDict [("tokens",
          PDict [("id_token", PStr ("h." ++ repeat_string 1000 "W1tb" ++ ".s"))])].

Definition scenario_line : string :=
  dq "{'payload': {'type': 'token_count', 'info': {'total_token_usage': {'input_tokens': 100, 'output_tokens': 50, 'total_tokens': 150}}, 'rate_limits': {'primary': {'used_percent': 42.5, 'resets_in_seconds': 3600, 'window_minutes': 300}}}}" ++ nl.

Definition scenario_dir : session_fs :=
  session_dir [("2024/05/01/rollout-a.jsonl", (Ret 100, Ret [line_other; scenario_line]))].

(** A log with a snapshot followed by twenty other events, and a log with
    the twenty events alone. *)
Definition twenty_others : list string := replicate 20 line_other.

Definition long_log_dir : session_fs :=
  session_dir [("rollout-a.jsonl", (Ret 100, Ret (line_a :: twenty_others)));
               ("rollout-t.jsonl", (Ret 200, Ret twenty_others))].

(** A summary for [user@x.com] from the log with two snapshots, and the cache
    it leaves. *)
Definition cached_run : res summary * cache_fs :=
  get_usage_summary "cache" noon noon (Some "user@x.com") two_snapshots_dir empty_cache.

Definition cached_summary : summary :=
  match cached_run.1 with
  | Ret s => s
  | Raise _ => initial_summary noon
  end.

(** A summary one of whose windows has a null field. *)
Definition null_window : summary :=
  {| check_time := "2024-05-01 12:00:00"; status := "success";
     token_usage := PDict [];
     rate_limits := PDict [("primary", PDict five_hours);
                           ("secondary", PDict [("window_minutes", PNone)])];
     errors := [] |}.

(** An account summary without a session directory. *)
Definition account_run : res account_summary * cache_fs :=
  get_account_summary "cache" noon noon None no_session_dir empty_cache.

Definition failed_account : account_summary :=
  match account_run.1 with
  | Ret a => a
  | Raise _ =>
      {| acc_email := ""; acc_check_time := ""; acc_status := "";
         acc_usage_data := PNone; acc_rate_limits := PNone; acc_errors := [] |}
  end.

End Demo.

(** ** The words of the specification *)

Section Words.
Context `{RT : PyRuntime}.

(** A decoded line is a usage snapshot: its payload carries the type tag
    [token_count] and contains a [rate_limits] field. *)
Definition qualifies (data : pyval) : bool :=
  match data with
  | PDict kv =>
      match default (PDict []) (assoc "payload" kv) with
      | PDict payload =>
          py_eq_str (default PNone (assoc "type" payload)) "token_count"
          && bool_decide (is_Some (assoc "rate_limits" payload))
      | _ => false
      end
  | _ => false
  end.


(** The decoded line when it parses and is a usage snapshot. *)
Definition snapshot_of_line (line : string) : option pyval :=
  match json_loads (strip line) with
  | Some data => if qualifies data then Some data else None
  | None => None
  end.



(** A line that is malformed, or an object whose [payload], when there is
    one, is an object. *)
Definition well_shaped (line : string) : Prop :=
  json_loads (strip line) = None ∨
  ∃ kv, json_loads (strip line) = Some (PDict kv) ∧
        (assoc "payload" kv = None ∨ ∃ payload, assoc "payload" kv = Some (PDict payload)).

(** The cases in which, by the specification, a cache read gives [None]:
    empty identity, missing file, malformed JSON, unparsable timestamp, entry
    older than 24 hours. *)
Definition listed_soft_failure (usage_cache_dir : string) (now : Z) (email : string)
    (st : cache_fs) : bool :=
  String.eqb email "" ||
  negb (fs_exists st (cache_file usage_cache_dir email)) ||
  match cache_files st !! cache_file usage_cache_dir email with
  | None => true
  | Some content =>
      match json_loads content with
      | None => true
      | Some cache_data =>
          match bind (py_get cache_data "last_updated" (PStr "")) py_fromisoformat with
          | Raise _ => true
          | Ret (Naive t) => day_us <? now - t
          | Ret (Aware _) => false
          end
      end
  end.


(** The cache entry written for [email] at [now]. *)
Definition cache_entry (now : Z) (email : string) (usage_data : pyval) : pyval :=
  PDict [("email", PStr email);
         ("last_updated", PStr (isoformat now));
         ("usage_data", usage_data)].

(** The auth structure holds [tokens.id_token], a dotted string whose second
    segment, with one to four [=] appended to make its length a multiple of
    four, decodes from base64 to a JSON object with the member [email]. *)
Definition carries_email (auth_data email : pyval) : Prop :=
  ∃ kv tokens id_token decoded claims,
    auth_data = PDict kv ∧
    assoc "tokens" kv = Some (PDict tokens) ∧
    assoc "id_token" tokens = Some (PStr id_token) ∧
    (2 ≤ length (split_char "." id_token))%nat ∧
    (let segment := nth 1 (split_char "." id_token) "" in
     b64decode (segment ++ repeat_string (4 - String.length segment mod 4) "=")
     = Some decoded) ∧
    json_loads_bytes decoded = Ret (PDict claims) ∧
    assoc "email" claims = Some email.

(** The bytes [json.loads] is given: the auth structure holds
    [tokens.id_token], a dotted string whose second segment, with one to four
    [=] appended, decodes from base64 to [decoded]. *)
Definition token_bytes (auth_data : pyval) (decoded : string) : Prop :=
  ∃ kv tokens id_token,
    auth_data = PDict kv ∧
    assoc "tokens" kv = Some (PDict tokens) ∧
    assoc "id_token" tokens = Some (PStr id_token) ∧
    (2 ≤ length (split_char "." id_token))%nat ∧
    (let segment := nth 1 (split_char "." id_token) "" in
     b64decode (segment ++ repeat_string (4 - String.length segment mod 4) "=")
     = Some decoded).

(** The exceptions neither [except] clause of [extract_email_from_auth]
    names. *)
Definition uncaught (e : exn) : bool :=
  negb (existsb (subclass e) [ValueError; JSONDecodeError]) &&
  negb (existsb (subclass e) [KeyError; TypeError; AttributeError]).

(** The first line of the block of a window. *)
Definition window_heading (label : string) : string := "  🔄 " ++ label ++ ":".

End Words.

(** ** Further notions the properties use *)

Section Notions.
Context `{RT : PyRuntime}.

(** A line the quick check passes over: malformed, or an object whose
    payload is an object of another type than [token_count]. *)
Definition not_usage_event (line : string) : Prop :=
  json_loads (strip line) = None ∨
  ∃ kv payload,
    json_loads (strip line) = Some (PDict kv) ∧
    default (PDict []) (assoc "payload" kv) = PDict payload ∧
    py_eq_str (default PNone (assoc "type" payload)) "token_count" = false.

(** The three substitutions of [safe_email] in one pass. *)
Definition sanitize_char (c : ascii) : string :=
  if Ascii.eqb c "@" then "_at_"
  else if Ascii.eqb c "." then "_"
  else if Ascii.eqb c "+" then "_plus_"
  else String c EmptyString.

Fixpoint sanitize (s : string) : string :=
  match s with
  | String c rest => sanitize_char c ++ sanitize rest
  | EmptyString => EmptyString
  end.

Definition has_char (c : ascii) (s : string) : Prop := In c (list_ascii_of_string s).

(** The characters [safe_email] replaces. *)
Definition special (c : ascii) : Prop := c = "@"%char ∨ c = "."%char ∨ c = "+"%char.

(** The token usage [get_usage_summary] takes from a payload:
    [info.total_token_usage] when [info] is an object that has it. *)
Definition usage_of_payload (payload : list (string * pyval)) : pyval :=
  match assoc "info" payload with
  | Some (PDict info) => default (PDict []) (assoc "total_token_usage" info)
  | _ => PDict []
  end.

(** The snapshot [get_usage_summary] hands to the cache. *)
Definition cached_snapshot (s : summary) : pyval :=
  PDict [("check_time", PStr (check_time s));
         ("token_usage", token_usage s);
         ("rate_limits", rate_limits s)].

(** The summary of a successful query: the check time, the fields taken from
    the payload of the snapshot and no error. *)
Definition success_summary (now : Z) (payload : list (string * pyval)) (limits : pyval)
    : summary :=
  {| check_time := strftime_full now; status := "success";
     token_usage := usage_of_payload payload; rate_limits := limits; errors := [] |}.

(** The cache write of line 173 for the summary [s]: none without an
    identity. *)
Definition summary_save (usage_cache_dir : string) (now_save : Z) (email : option string)
    (s : summary) (st : cache_fs) : res bool * cache_fs :=
  match email with
  | Some e => save_usage_data usage_cache_dir now_save e (cached_snapshot s) st
  | None => (Ret false, st)
  end.

(** The member [k] of a dict is a number, or absent. *)
Definition numeric_member (kv : list (string * pyval)) (k : string) : Prop :=
  is_Some (number_of (default (PInt 0) (assoc k kv))).

(** A window the renderer can show: not an object (skipped), or an object
    whose three fields are numbers or absent. *)
Definition renderable_window (limit : pyval) : Prop :=
  match limit with
  | PDict kv =>
      numeric_member kv "used_percent" ∧ numeric_member kv "resets_in_seconds" ∧
      numeric_member kv "window_minutes"
  | _ => True
  end.

(** A window within the ranges of the runtime at [now]: when its
    [used_percent] is a number, [format] renders it with one decimal (it is
    within the range of floats), and when its [resets_in_seconds] is a
    number, the clock advanced by it is a date with a time of day. *)
Definition window_in_range (now : Z) (limit : pyval) : Prop :=
  match limit with
  | PDict kv =>
      (∀ n, number_of (default (PInt 0) (assoc "used_percent" kv)) = Some n →
            returns (format_fixed1 n)) ∧
      (∀ n, number_of (default (PInt 0) (assoc "resets_in_seconds" kv)) = Some n →
            returns (strftime_reset now n))
  | _ => True
  end.

(** A count within the range of the runtime: when the member [k] is a
    number, [format] renders it with commas (an integer within the limit on
    digits). *)
Definition count_in_range (kv : list (string * pyval)) (k : string) : Prop :=
  ∀ n, number_of (default (PInt 0) (assoc k kv)) = Some n → returns (format_commas n).

Definition usage_in_range (usage : pyval) : Prop :=
  match usage with
  | PDict kv =>
      count_in_range kv "input_tokens" ∧ count_in_range kv "cached_input_tokens" ∧
      count_in_range kv "output_tokens" ∧ count_in_range kv "total_tokens"
  | _ => True
  end.

(** A token usage the renderer can show: falsy (skipped), or an object whose
    four counts are numbers or absent. *)
Definition renderable_usage (usage : pyval) : Prop :=
  py_truthy usage = false ∨
  ∃ kv, usage = PDict kv ∧
        numeric_member kv "input_tokens" ∧ numeric_member kv "cached_input_tokens" ∧
        numeric_member kv "output_tokens" ∧ numeric_member kv "total_tokens".

End Notions.

(** * Properties *)

Local Open Scope list_scope.

Section Properties.
Context `{RT : PyRuntime}.




Lemma parse_line_well_shaped line :
  well_shaped line → parse_line line = Ret (snapshot_of_line line).
Proof.
  unfold parse_line, snapshot_of_line.
  intros [->|(kv & -> & Hp)]; [done|]. simpl.
  assert (∃ payload, default (PDict []) (assoc "payload" kv) = PDict payload)
    as [payload ->].
  { destruct Hp as [->|[payload ->]]; eauto. }
  simpl. destruct (py_eq_str _ _); simpl; [|done].
  by destruct (bool_decide _).
Qed.

Lemma snapshot_of_line_Some line data :
  json_loads (strip line) = Some data → qualifies data = true →
  snapshot_of_line line = Some data.
Proof. intros Hd Hq. unfold snapshot_of_line. by rewrite Hd, Hq. Qed.


End Properties.

(** ** The event extractor *)

Section Extractor.
Context `{RT : PyRuntime}.


End Extractor.



(** ** The log scanner *)

Section Scanner.
Context `{RT : PyRuntime}.

Lemma insert_desc_perm x l : insert_desc x l ≡ₚ x :: l.
Proof.
  induction l as [|y l IH]; simpl; [done|].
  destruct (y.1 <=? x.1); [done|]. rewrite IH. apply Permutation_swap.
Qed.

Lemma sort_desc_perm l : sort_desc l ≡ₚ l.
Proof.
  induction l as [|x l IH]; simpl; [done|].
  by rewrite insert_desc_perm, IH.
Qed.

Lemma insert_desc_sorted x l :
  StronglySorted key_ge l → StronglySorted key_ge (insert_desc x l).
Proof.
  induction 1 as [|y l Hl IH Hy]; simpl.
  - repeat constructor.
  - destruct (Z.leb_spec y.1 x.1) as [Hle|Hlt].
    + constructor; [by constructor|]. constructor; [exact Hle|].
      eapply Forall_impl; [exact Hy|]. unfold key_ge. intros z Hz. lia.
    + constructor; [exact IH|].
      rewrite insert_desc_perm. constructor; [|exact Hy]. unfold key_ge. lia.
Qed.

Lemma sort_desc_sorted l : StronglySorted key_ge (sort_desc l).
Proof.
  induction l as [|x l IH]; simpl; [constructor|]. by apply insert_desc_sorted.
Qed.

(** With distinct keys the order is strict. *)
Lemma sorted_distinct_strict l :
  StronglySorted key_ge l → NoDup l.*1 → StronglySorted key_gt l.
Proof.
  induction 1 as [|x l Hl IH Hx]; simpl; [constructor|].
  rewrite NoDup_cons. intros [Hnotin Hnodup]. constructor; [by apply IH|].
  apply Forall_forall. intros y Hy.
  rewrite Forall_forall in Hx. specialize (Hx y Hy). unfold key_ge, key_gt in *.
  assert (y.1 ≠ x.1); [|lia].
  intros Heq. apply Hnotin. rewrite <- Heq. by apply list_elem_of_fmap_2.
Qed.

Lemma with_keys_ok (key : string → res Z) (mtime : string → Z) files :
  (∀ f, f ∈ files → key f = Ret (mtime f)) →
  with_keys key files = Ret ((fun f => (mtime f, f)) <$> files).
Proof.
  induction files as [|f files IH]; intros Hk; simpl; [done|].
  rewrite Hk by left. simpl. rewrite IH; [done|].
  intros g Hg. apply Hk. by right.
Qed.

Lemma probe_loop_found fs skipped f rest :
  Forall (fun g => _has_token_count_data fs g = Ret false) skipped →
  _has_token_count_data fs f = Ret true →
  probe_loop fs (skipped ++ f :: rest) = (skipped ++ [f], Ret (Some f)).
Proof.
  intros Hs Hf. induction Hs as [|g gs Hg _ IH]; simpl.
  - by rewrite Hf.
  - by rewrite Hg, IH.
Qed.

Lemma probe_loop_none fs cands :
  Forall (fun g => _has_token_count_data fs g = Ret false) cands →
  probe_loop fs cands = (cands, Ret None).
Proof.
  induction 1 as [|g gs Hg _ IH]; simpl; [done|]. by rewrite Hg, IH.
Qed.

(** The candidates as the sort leaves them when every [stat] succeeds. *)
Lemma sorted_candidates (mtime : string → Z) files :
  NoDup (mtime <$> files) →
  let sorted := (sort_desc ((fun f => (mtime f, f)) <$> files)).*2 in
  sorted ≡ₚ files ∧ StronglySorted (fun a b => mtime b < mtime a) sorted.
Proof.
  intros Hnodup. set (keyed := (fun f => (mtime f, f)) <$> files). simpl. split.
  - rewrite sort_desc_perm. unfold keyed. rewrite <- list_fmap_compose.
    by rewrite list_fmap_id.
  - assert (StronglySorted key_gt (sort_desc keyed)) as Hs.
    { apply sorted_distinct_strict; [apply sort_desc_sorted|].
      rewrite sort_desc_perm. unfold keyed. by rewrite <- list_fmap_compose. }
    assert (Forall (fun p => p.1 = mtime p.2) (sort_desc keyed)) as Hk.
    { rewrite sort_desc_perm. unfold keyed. apply Forall_fmap, Forall_forall.
      by intros. }
    induction Hs as [|p l Hl IH Hp]; simpl; [constructor|].
    apply Forall_cons in Hk as [Hp1 Hk]. constructor; [by apply IH|].
    apply Forall_fmap. apply Forall_forall. intros q Hq. simpl.
    rewrite Forall_forall in Hp, Hk. specialize (Hp q Hq). specialize (Hk q Hq).
    unfold key_gt in Hp. lia.
Qed.

(** C2.  Without the directory, or without a matching file, the scanner
    returns [None].  Otherwise, when the candidates have distinct
    modification times, let [sorted] be the candidates in strictly descending
    order of modification time: the scanner probes a prefix of the first ten
    of [sorted], in that order, with [_has_token_count_data]; it returns the
    first that probes positive and probes nothing after it; when none of the
    first ten probes positive it returns the newest candidate. *)
Theorem find_latest_session_file_scan (fs : session_fs) :
  (sessions_dir_exists fs = false → find_latest_session_file fs = Ret None) ∧
  (glob_rollouts fs = [] → find_latest_session_file fs = Ret None) ∧
  (∀ mtime : string → Z,
     sessions_dir_exists fs = true → glob_rollouts fs ≠ [] →
     (∀ f, f ∈ glob_rollouts fs → stat_mtime fs f = Ret (mtime f)) →
     NoDup (mtime <$> glob_rollouts fs) →
     ∃ sorted newest,
       sorted ≡ₚ glob_rollouts fs ∧
       StronglySorted (fun a b => mtime b < mtime a) sorted ∧
       head sorted = Some newest ∧
       (∀ (i : nat) f,
          (i < 10)%nat → sorted !! i = Some f →
          Forall (fun g => _has_token_count_data fs g = Ret false) (take i sorted) →
          _has_token_count_data fs f = Ret true →
          find_latest_session_file_probing fs = (take (S i) sorted, Ret (Some f)) ∧
          find_latest_session_file fs = Ret (Some f)) ∧
       (Forall (fun g => _has_token_count_data fs g = Ret false) (take 10 sorted) →
          find_latest_session_file_probing fs = (take 10 sorted, Ret (Some newest)) ∧
          find_latest_session_file fs = Ret (Some newest))).
Proof.
  unfold find_latest_session_file, find_latest_session_file_probing.
  split; [by intros ->|]. split; [intros ->; by destruct (sessions_dir_exists fs)|].
  intros mtime -> Hne Hstat Hnodup. simpl.
  destruct (glob_rollouts fs) as [|f0 files] eqn:Hglob; [done|].
  rewrite (with_keys_ok _ mtime) by exact Hstat.
  destruct (sorted_candidates mtime (f0 :: files) Hnodup) as [Hperm Hsorted].
  set (sorted := (sort_desc ((fun f => (mtime f, f)) <$> f0 :: files)).*2) in *.
  destruct sorted as [|newest sorted'] eqn:Hs.
  { apply Permutation_nil_l in Hperm. done. }
  rewrite <- Hs in *. exists sorted, newest. rewrite Hs at 3.
  split; [done|]. split; [done|]. split; [done|]. split.
  - intros i f Hi Hf Hskipped Hprobe.
    assert (take 10 sorted = take i sorted ++ f :: take (9 - i) (drop (S i) sorted))
      as ->.
    { rewrite <- (take_drop_middle sorted i f Hf) at 1.
      rewrite take_app, length_take_le
        by (apply lookup_lt_Some in Hf; lia).
      rewrite take_take. replace (10 `min` i)%nat with i by lia.
      replace (10 - i)%nat with (S (9 - i)) by lia. done. }
    rewrite (probe_loop_found _ _ _ _ Hskipped Hprobe).
    rewrite (take_S_r _ _ _ Hf). done.
  - intros Hnone. rewrite (probe_loop_none _ _ Hnone). simpl. by rewrite Hs.
Qed.

End Scanner.

Lemma find_latest_session_file_scan_witness :
  ∃ sorted newest,
    sorted ≡ₚ glob_rollouts Demo.three_logs_dir ∧
    StronglySorted (fun a b => Demo.three_logs_mtime b < Demo.three_logs_mtime a) sorted ∧
    head sorted = Some newest ∧
    (∀ (i : nat) f,
       (i < 10)%nat → sorted !! i = Some f →
       Forall (fun g => _has_token_count_data (RT := Reference.runtime)
                          Demo.three_logs_dir g = Ret false) (take i sorted) →
       _has_token_count_data (RT := Reference.runtime) Demo.three_logs_dir f = Ret true →
       find_latest_session_file_probing (RT := Reference.runtime) Demo.three_logs_dir
         = (take (S i) sorted, Ret (Some f)) ∧
       find_latest_session_file (RT := Reference.runtime) Demo.three_logs_dir
         = Ret (Some f)) ∧
    (Forall (fun g => _has_token_count_data (RT := Reference.runtime)
                        Demo.three_logs_dir g = Ret false) (take 10 sorted) →
       find_latest_session_file_probing (RT := Reference.runtime) Demo.three_logs_dir
         = (take 10 sorted, Ret (Some newest)) ∧
       find_latest_session_file (RT := Reference.runtime) Demo.three_logs_dir
         = Ret (Some newest)).
Proof.
  apply (proj2 (proj2 (find_latest_session_file_scan (RT := Reference.runtime)
                         Demo.three_logs_dir)) Demo.three_logs_mtime).
  - reflexivity.
  - discriminate.
  - intros f Hf. simpl in Hf.
    repeat (apply elem_of_cons in Hf as [->|Hf]; [reflexivity|]).
    by apply elem_of_nil in Hf.
  - apply (bool_decide_unpack _). vm_compute. exact I.
Defined.

(** The scan on the example directories: the newest log is probed first, the
    scan stops at the first positive probe, and a positive log beyond the ten
    newest is not reached. *)
Example find_latest_session_file_three_logs :
  find_latest_session_file_probing (RT := Reference.runtime) Demo.three_logs_dir
  = (["rollout-b.jsonl"; "rollout-c.jsonl"]%string, Ret (Some "rollout-c.jsonl"%string)).
Proof. vm_compute. reflexivity. Qed.

Example find_latest_session_file_twelve_logs :
  find_latest_session_file_probing (RT := Reference.runtime) Demo.twelve_logs_dir
  = (["rollout-12.jsonl"; "rollout-11.jsonl"; "rollout-10.jsonl"; "rollout-09.jsonl";
      "rollout-08.jsonl"; "rollout-07.jsonl"; "rollout-06.jsonl"; "rollout-05.jsonl";
      "rollout-04.jsonl"; "rollout-03.jsonl"]%string,
     Ret (Some "rollout-12.jsonl"%string)).
Proof. vm_compute. reflexivity. Qed.

(** ** Exceptions that escape *)

(** C3 fails on the code.  The sort of line 45 calls [stat] outside any
    [try]: a log that [glob] lists and [stat] does not find makes
    [find_latest_session_file], and [get_usage_summary] with it, raise the
    [OSError].  A log whose last line is JSON but not an object makes the
    probe, the extractor and both callers raise [AttributeError]. *)
Theorem scan_errors_escape :
  find_latest_session_file (RT := Reference.runtime) Demo.dangling_dir = Raise OSError ∧
  get_usage_summary (RT := Reference.runtime) "cache" 0 0 None Demo.dangling_dir empty_cache
    = (Raise OSError, empty_cache) ∧
  _has_token_count_data (RT := Reference.runtime) Demo.number_dir "rollout-a.jsonl"
    = Raise AttributeError ∧
  parse_session_file (RT := Reference.runtime) Demo.number_dir "rollout-a.jsonl"
    = Raise AttributeError ∧
  find_latest_session_file (RT := Reference.runtime) Demo.number_dir = Raise AttributeError ∧
  get_usage_summary (RT := Reference.runtime) "cache" 0 0 None Demo.number_dir empty_cache
    = (Raise AttributeError, empty_cache).
Proof. repeat split; vm_compute; reflexivity. Qed.

(** C10.  There is a log on which the quick check answers [True] and the
    extractor returns [None]: its only [token_count] event has no
    [rate_limits].  The scanner selects that log, and the summary fails for
    want of usage data. *)
Theorem probe_positive_without_snapshot :
  ∃ (fs : session_fs) (f : string),
    _has_token_count_data (RT := Reference.runtime) fs f = Ret true ∧
    parse_session_file (RT := Reference.runtime) fs f = Ret None ∧
    find_latest_session_file (RT := Reference.runtime) fs = Ret (Some f) ∧
    ∃ s, get_usage_summary (RT := Reference.runtime) "cache" 0 0 None fs empty_cache
           = (Ret s, empty_cache) ∧
         status s = "failed"%string ∧ errors s = [no_usage_data_msg].
Proof.
  exists Demo.tag_only_dir, "rollout-a.jsonl"%string.
  repeat split; try (vm_compute; reflexivity).
  eexists. repeat split; vm_compute; reflexivity.
Qed.

(** ** The usage cache *)

Section Cache.
Context `{RT : PyRuntime}.
Variable usage_cache_dir : string.





End Cache.

(** C6 fails on an identity with a NUL character: [open] raises a
    [ValueError], which the [except (OSError, IOError)] of line 110 does not
    catch, so the call raises where the claim has it return; the cache is
    left as it was.  [load_usage_data], whose clause of line 134 names
    [ValueError], returns [None] for the same identity. *)
Theorem save_usage_data_raises :
  save_usage_data (RT := Reference.runtime) "cache" Demo.noon Demo.nul_identity
    Demo.snapshot empty_cache = (Raise ValueError, empty_cache) ∧
  load_usage_data (RT := Reference.runtime) "cache" Demo.noon Demo.nul_identity
    empty_cache = Ret PNone.
Proof. split; vm_compute; reflexivity. Qed.



(** Likewise for a fresh entry that holds no [usage_data]. *)
Example load_usage_data_none_without_usage_data :
  listed_soft_failure (RT := Reference.runtime) "cache" (Demo.noon + Demo.hour_us)
    "user@x.com" Demo.bare_cache = false ∧
  load_usage_data (RT := Reference.runtime) "cache" (Demo.noon + Demo.hour_us)
    "user@x.com" Demo.bare_cache = Ret PNone.
Proof. split; vm_compute; reflexivity. Qed.

(** The slips the amended C5 leaves out: content that is JSON but not an
    object, and a timestamp carrying a UTC offset, make the read raise. *)
Example load_usage_data_raises :
  load_usage_data (RT := Reference.runtime) "cache" Demo.noon "user@x.com"
    {| cache_files := {[ cache_file "cache" "user@x.com" := "[]"%string ]};
       cache_denied := ∅ |} = Raise AttributeError ∧
  load_usage_data (RT := Reference.runtime) "cache" Demo.noon "user@x.com"
    {| cache_files :=
         {[ cache_file "cache" "user@x.com" :=
              Reference.dq "{'last_updated': '2024-05-01T12:00:00+00:00'}" ]};
       cache_denied := ∅ |} = Raise TypeError.
Proof. split; vm_compute; reflexivity. Qed.


(** ** The summary *)

Section Summary.
Context `{RT : PyRuntime}.


End Summary.


(** ** Rendering *)

Section Rendering.
Context `{RT : PyRuntime}.

Lemma format_limits_blocks now items flat :
  format_limits now items = Ret flat →
  ∃ blocks, flat = concat blocks ∧
            Forall2 (fun item block => format_limit now item.2 = Ret block) items blocks.
Proof.
  revert flat. induction items as [|[key limit] items IH]; simpl; intros flat Hflat.
  - injection Hflat as <-. by exists [].
  - destruct (format_limit now limit) as [block|] eqn:Hblock; [|done]. simpl in Hflat.
    destruct (format_limits now items) as [rest|]; [|done]. simpl in Hflat.
    injection Hflat as <-. destruct (IH rest eq_refl) as (blocks & -> & Hall).
    exists (block :: blocks). split; [done|]. by constructor.
Qed.

(** C8.  Whenever the block of a window is rendered, it opens with the
    heading that carries the short label when [window_minutes] is at most 330
    and the long label when it exceeds 330, followed by the line of the
    percentage and the line of the reset time; it is rendered when
    [used_percent] and [resets_in_seconds] are numbers that the runtime
    formats and adds to the clock; the two labels differ; and the text
    rendered for a summary that did not fail is the header, the token block,
    the line announcing the rate limits and then the blocks of the windows,
    in their order. *)
Theorem format_usage_summary_window_labels (now : Z) :
  (∀ limit (w : Z) block,
     default (PInt 0) (assoc "window_minutes" limit) = PInt w →
     format_limit now (PDict limit) = Ret block →
     ∃ used reset_time,
       py_format format_fixed1 (default (PInt 0) (assoc "used_percent" limit)) = Ret used ∧
       py_reset_time now (default (PInt 0) (assoc "resets_in_seconds" limit))
         = Ret reset_time ∧
       block
       = [window_heading (if w <=? 330 then short_window_label else long_window_label);
          ("    已使用: " ++ used ++ "%")%string;
          ("    重置时间: " ++ reset_time)%string]) ∧
  (∀ limit (w : Z) used reset used_text reset_time,
     default (PInt 0) (assoc "window_minutes" limit) = PInt w →
     number_of (default (PInt 0) (assoc "used_percent" limit)) = Some used →
     number_of (default (PInt 0) (assoc "resets_in_seconds" limit)) = Some reset →
     format_fixed1 used = Ret used_text →
     strftime_reset now reset = Ret reset_time →
     format_limit now (PDict limit)
       = Ret [window_heading (if w <=? 330 then short_window_label else long_window_label);
              ("    已使用: " ++ used_text ++ "%")%string;
              ("    重置时间: " ++ reset_time)%string]) ∧
  short_window_label ≠ long_window_label ∧
  (∀ s items text,
     status s ≠ "failed"%string → rate_limits s = PDict items → items ≠ [] →
     format_usage_summary now s = Ret text →
     ∃ usage_lines blocks,
       (if py_truthy (token_usage s) then format_token_usage (token_usage s) else Ret [])
         = Ret usage_lines ∧
       text = join nl (format_header s ++ usage_lines ++
                       [(nl ++ "⏰ 速率限制:")%string] ++ concat blocks) ∧
       Forall2 (fun item block => format_limit now item.2 = Ret block) items blocks).
Proof.
  split; [|split; [|split; [done|]]].
  - intros limit w block Hw. unfold format_limit. simpl. rewrite Hw.
    destruct (py_reset_time now _) as [reset_time|]; [|done]. simpl.
    destruct (py_format format_fixed1 _) as [used|]; [|done]. simpl.
    intros [= <-]. exists used, reset_time. by destruct (w <=? 330).
  - intros limit w used reset used_text reset_time Hw Hused Hreset Hfixed Htime.
    unfold format_limit. simpl.
    rewrite Hw. unfold py_reset_time, py_format. rewrite Hreset, Hused, Hfixed, Htime.
    simpl. by destruct (w <=? 330).
  - intros s items text Hstatus Hlimits Hne. unfold format_usage_summary.
    rewrite (proj2 (String.eqb_neq _ _) Hstatus), Hlimits.
    destruct (if py_truthy (token_usage s) then _ else _) as [usage_lines|]; [|done].
    simpl. destruct items as [|item items]; [done|].
    destruct (format_limits now (item :: items)) as [flat|] eqn:Hflat; [|done].
    cbn [bind]. intros [= <-].
    destruct (format_limits_blocks _ _ _ Hflat) as (blocks & -> & Hall).
    by exists usage_lines, blocks.
Qed.

End Rendering.

(** ** The identity helper *)

Section Identity.
Context `{RT : PyRuntime}.

Lemma extract_email_from_auth_cases (auth_data : pyval) :
  (∃ email, extract_email_from_auth auth_data = Ret email ∧
            (email = PNone ∨ carries_email auth_data email)) ∨
  (∃ decoded e, extract_email_from_auth auth_data = Raise e ∧
                token_bytes auth_data decoded ∧
                json_loads_bytes decoded = Raise e ∧ uncaught e = true).
Proof.
  unfold extract_email_from_auth.
  destruct auth_data as [| | | | | |kv]; simpl; try by eauto.
  destruct (assoc "tokens" kv) as [[| | | | | |tokens]|] eqn:Htokens; simpl;
    try by eauto.
  destruct (assoc "id_token" tokens) as [[|[]|z|f|id_token|[]|[]]|] eqn:Hid; simpl;
    try by eauto.
  - destruct (negb (z =? 0)); simpl; eauto.
  - destruct (negb (PrimFloat.eqb f 0)); simpl; eauto.
  - destruct (negb (String.eqb id_token "")); simpl; [|by eauto].
    destruct (split_char "." id_token) as [|head [|second rest]] eqn:Hparts; simpl;
      try by eauto.
    unfold py_b64decode, pad_base64.
    destruct (b64decode _) as [decoded|] eqn:Hb64; simpl; [|by eauto].
    assert (Hbytes : token_bytes (PDict kv) decoded).
    { exists kv, tokens, id_token. rewrite Hparts. simpl. repeat split; try done. lia. }
    destruct (json_loads_bytes decoded) as [[| | | | | |claims]|e] eqn:Hjson; simpl;
      try by eauto.
    + destruct (assoc "email" claims) as [email|] eqn:Hemail; simpl; [|by eauto].
      left. exists email. split; [done|]. right.
      exists kv, tokens, id_token, decoded, claims. rewrite Hparts. simpl.
      repeat split; try done. lia.
    + destruct e; simpl; try by eauto.
      all: right; eexists decoded, _; by repeat split.
Qed.

End Identity.

Lemma format_usage_summary_window_labels_witness :
  format_limit (RT := Reference.runtime) Demo.noon (PDict Demo.weekly)
    = Ret [window_heading long_window_label;
           "    已使用: 7.0%"%string; "    重置时间: 12:00:00"%string] ∧
  format_limit (RT := Reference.runtime) Demo.noon (PDict Demo.five_hours)
    = Ret [window_heading short_window_label;
           "    已使用: 42.0%"%string; "    重置时间: 13:00:00"%string] ∧
  (∃ used reset_time,
     py_format (format_fixed1 (PyRuntime := Reference.runtime))
       (default (PInt 0) (assoc "used_percent" Demo.weekly)) = Ret used ∧
     py_reset_time (RT := Reference.runtime) Demo.noon
       (default (PInt 0) (assoc "resets_in_seconds" Demo.weekly)) = Ret reset_time ∧
     [window_heading long_window_label;
      "    已使用: 7.0%"%string; "    重置时间: 12:00:00"%string]
     = [window_heading long_window_label;
        ("    已使用: " ++ used ++ "%")%string;
        ("    重置时间: " ++ reset_time)%string]) ∧
  ∃ usage_lines blocks,
    (if py_truthy (token_usage Demo.both_windows)
     then format_token_usage (RT := Reference.runtime) (token_usage Demo.both_windows)
     else Ret []) = Ret usage_lines ∧
    Demo.both_windows_text
      = join nl (format_header Demo.both_windows ++ usage_lines ++
                 [(nl ++ "⏰ 速率限制:")%string] ++ concat blocks) ∧
    Forall2 (fun item block =>
               format_limit (RT := Reference.runtime) Demo.noon item.2 = Ret block)
      [("primary"%string, PDict Demo.five_hours); ("secondary"%string, PDict Demo.weekly)]
      blocks.
Proof.
  pose proof (format_usage_summary_window_labels (RT := Reference.runtime) Demo.noon)
    as (Hlabel & Hblock & _ & Htext).
  split; [|split; [|split]].
  - apply (Hblock Demo.weekly 10080 (NInt 7) (NInt 86400) "7.0"%string "12:00:00"%string);
      vm_compute; reflexivity.
  - apply (Hblock Demo.five_hours 300 (NInt 42) (NInt 3600) "42.0"%string
             "13:00:00"%string); vm_compute; reflexivity.
  - apply (Hlabel Demo.weekly 10080); vm_compute; reflexivity.
  - apply (Htext Demo.both_windows).
    + discriminate.
    + reflexivity.
    + discriminate.
    + vm_compute. reflexivity.
Defined.

(** The heading lines in the rendered text of the example: the window of 300
    minutes under the short label, the window of 10080 minutes under the long
    one. *)
Example both_windows_headings :
  filter (fun line => String.prefix "  🔄" line = true)
    (match format_usage_summary (RT := Reference.runtime) Demo.noon Demo.both_windows with
     | Ret text => Reference.lines_of text
     | Raise _ => []
     end)
  = ["  🔄 5小时窗口:"; "  🔄 周限制:"]%string.
Proof. vm_compute. reflexivity. Qed.

(** C9 fails on a token whose second segment decodes to three thousand
    opening brackets: [json.loads] exhausts the recursion limit, and the
    [RecursionError] is named by neither [except] clause (lines 248 and 250),
    so the call raises where the claim has it return [None]. *)
Theorem extract_email_from_auth_raises :
  extract_email_from_auth (RT := Reference.runtime) Demo.nested_auth
  = Raise RecursionError.
Proof. vm_compute. reflexivity. Qed.

(** Inputs of the wrong shape, each answered by [None]. *)
Example extract_email_from_auth_malformed :
  Forall (fun auth_data =>
            extract_email_from_auth (RT := Reference.runtime) auth_data = Ret PNone)
    [PNone; PList []; PDict [("tokens", PStr "t")];
     PDict [("tokens", PDict [("id_token", PInt 5)])];
     PDict [("tokens", PDict [("id_token", PStr "onlyone")])];
     PDict [("tokens", PDict [("id_token", PStr "h.a.s")])];
     PDict [("tokens", PDict [("id_token", PStr "h.bm90IGpzb24.s")])];
     PDict [("tokens", PDict [("id_token", PStr "h.NDI.s")])]]%string.
Proof. repeat constructor. Qed.

(** ** The scenario of the specification, end to end *)

Example scenario_summary :
  ∃ s text,
    get_usage_summary (RT := Reference.runtime) "cache" Demo.noon Demo.noon None
      Demo.scenario_dir empty_cache = (Ret s, empty_cache) ∧
    status s = "success"%string ∧
    py_get (token_usage s) "total_tokens" PNone = Ret (PInt 150) ∧
    format_usage_summary (RT := Reference.runtime) Demo.noon s = Ret text ∧
    drop 9 (Reference.lines_of text)
      = ["  总计 tokens: 150"; ""; "⏰ 速率限制:"; "  🔄 5小时窗口:";
         "    已使用: 42.5%"; "    重置时间: 13:00:00"]%string.
Proof. do 2 eexists. repeat split; vm_compute; reflexivity. Qed.

(** * Further properties of the code *)

(** ** Quick check and extractor, line by line *)

Section Lines.
Context `{RT : PyRuntime}.

Lemma first_hit_Some_inv {A B} (body : A → res (option B)) xs b :
  first_hit body xs = Ret (Some b) → ∃ x, x ∈ xs ∧ body x = Ret (Some b).
Proof.
  induction xs as [|x xs IH]; simpl; [done|].
  destruct (body x) as [[b'|]|] eqn:Hx; simpl; intros Hhit; [| |done].
  - injection Hhit as ->. exists x. split; [by left|done].
  - destruct (IH Hhit) as (y & Hy & Hb). exists y. split; [by right|done].
Qed.


Lemma last_n_app_ge {A} (n : nat) (old tail : list A) :
  (n ≤ length tail)%nat → last_n n (old ++ tail) = last_n n tail.
Proof.
  intros Hn. unfold last_n. rewrite length_app, drop_app_ge by lia. f_equal. lia.
Qed.

Lemma last_n_short {A} (n : nat) (l : list A) : (length l ≤ n)%nat → last_n n l = l.
Proof. intros Hn. unfold last_n. by replace (length l - n)%nat with 0%nat by lia. Qed.

Lemma last_n_snoc {A} (n : nat) (l : list A) x :
  last_n (S n) (l ++ [x]) = last_n n l ++ [x].
Proof.
  unfold last_n. rewrite length_app. simpl.
  replace (length l + 1 - S n)%nat with (length l - n)%nat by lia.
  rewrite drop_app_le by lia. done.
Qed.

Lemma not_well_shaped_decoded line v :
  json_loads (strip line) = Some v →
  (isinstance_dict v = false ∨
   ∃ kv p, v = PDict kv ∧ assoc "payload" kv = Some p ∧ isinstance_dict p = false) →
  ¬ well_shaped line.
Proof.
  intros Hv Hshape [Hnone|(kv & Hkv & Hp)]; [congruence|].
  rewrite Hkv in Hv. injection Hv as <-.
  destruct Hshape as [?|(kv' & p & [= <-] & Hp' & Hnd)]; [done|].
  destruct Hp as [Hp|[payload Hp]]; rewrite Hp in Hp'; [done|].
  injection Hp' as <-. done.
Qed.

(** What the quick check does with one line. *)
Lemma has_token_count_line_cases line :
  (has_token_count_line line = Ret None ∧ not_usage_event line) ∨
  (has_token_count_line line = Ret (Some true) ∧
   ∃ kv payload,
     json_loads (strip line) = Some (PDict kv) ∧
     default (PDict []) (assoc "payload" kv) = PDict payload ∧
     assoc "type" payload = Some (PStr "token_count")) ∨
  (has_token_count_line line = Raise AttributeError ∧ ¬ well_shaped line).
Proof.
  unfold has_token_count_line.
  destruct (json_loads (strip line)) as [data|] eqn:Hd; simpl.
  2:{ left. split; [done|]. by left. }
  destruct data as [| | | | | |kv];
    try (right; right; split; [done|];
         apply (not_well_shaped_decoded _ _ Hd); by left).
  simpl.
  destruct (default (PDict []) (assoc "payload" kv)) as [| | | | | |payload] eqn:Hp;
    try (right; right; split; [done|];
         apply (not_well_shaped_decoded _ _ Hd); right;
         destruct (assoc "payload" kv) as [p|] eqn:Ha; simpl in Hp; [|done];
         exists kv, p; subst p; done).
  simpl. destruct (py_eq_str _ _) eqn:Htype.
  - right; left. split; [done|]. exists kv, payload. split; [done|]. split; [done|].
    destruct (assoc "type" payload) as [[| | | |ty| |]|]; try done.
    simpl in Htype. apply String.eqb_eq in Htype. by subst ty.
  - left. split; [done|]. right. by exists kv, payload.
Qed.

(** What the extractor does with one line. *)
Lemma parse_line_cases line :
  (parse_line line = Ret (snapshot_of_line line) ∧ well_shaped line) ∨
  (parse_line line = Raise AttributeError ∧ ¬ well_shaped line).
Proof.
  destruct (has_token_count_line_cases line) as [[_ Hplain]|[[_ Hevent]|[Hraise Hshape]]].
  - left. assert (well_shaped line) as Hw.
    { destruct Hplain as [?|(kv & payload & Hd & Hp & _)]; [by left|].
      right. exists kv. split; [done|].
      destruct (assoc "payload" kv) as [p|]; [|by left].
      right. exists payload. simpl in Hp. by subst p. }
    split; [by apply parse_line_well_shaped|done].
  - left. destruct Hevent as (kv & payload & Hd & Hp & _).
    assert (well_shaped line) as Hw.
    { right. exists kv. split; [done|].
      destruct (assoc "payload" kv) as [p|]; [|by left].
      right. exists payload. simpl in Hp. by subst p. }
    split; [by apply parse_line_well_shaped|done].
  - right. split; [|done].
    unfold has_token_count_line, parse_line in *.
    destruct (json_loads (strip line)) as [data|]; [|done]. simpl in *.
    destruct (py_get data "payload" (PDict [])) as [payload|]; simpl in *;
      [|destruct (subclass _ _ || false); [done|by injection Hraise as ->]].
    destruct (py_get payload "type" PNone) as [ty|]; simpl in *;
      [|destruct (subclass _ _ || false); [done|by injection Hraise as ->]].
    by destruct (py_eq_str ty "token_count").
Qed.

Lemma snapshot_of_line_inv line d :
  snapshot_of_line line = Some d →
  json_loads (strip line) = Some d ∧ qualifies d = true.
Proof.
  unfold snapshot_of_line. destruct (json_loads (strip line)) as [data|]; [|done].
  destruct (qualifies data) eqn:Hq; [|done]. by intros [= <-].
Qed.

(** A snapshot line is a usage event for the quick check too. *)
Lemma snapshot_line_probes line d :
  snapshot_of_line line = Some d → has_token_count_line line = Ret (Some true).
Proof.
  intros [Hd Hq]%snapshot_of_line_inv. unfold has_token_count_line. rewrite Hd.
  destruct d as [| | | | | |kv]; try done. simpl in *.
  destruct (default (PDict []) (assoc "payload" kv)) as [| | | | | |payload]; try done.
  simpl. by apply andb_true_iff in Hq as [-> _].
Qed.

End Lines.

(** ** More on the quick check and the extractor *)

Section Probe.
Context `{RT : PyRuntime}.

Lemma not_usage_event_well_shaped line : not_usage_event line → well_shaped line.
Proof.
  intros [?|(kv & payload & Hd & Hp & _)]; [by left|].
  right. exists kv. split; [done|].
  destruct (assoc "payload" kv) as [p|]; [|by left].
  right. exists payload. simpl in Hp. by subst p.
Qed.



Lemma qualifies_truthy d : qualifies d = true → py_truthy d = true.
Proof. destruct d as [| | | | | |[|item kv]]; done. Qed.

Lemma try_except_Ret_inv {A} (body : res A) classes (fallback a : A) :
  try_except body classes (Ret fallback) = Ret a → a ≠ fallback → body = Ret a.
Proof.
  destruct body as [b|e]; simpl; [done|].
  destruct (existsb _ _); [|done]. by intros [= ->].
Qed.

(** X1.  The quick check looks at the last 20 lines only: what stands before
    them in the file does not change its answer. *)
Theorem probe_reads_last_twenty (fs fs' : session_fs) (f g : string)
    (old tail : list string) :
  readlines fs f = Ret (old ++ tail) → readlines fs' g = Ret tail →
  (20 ≤ length tail)%nat →
  _has_token_count_data fs f = _has_token_count_data fs' g.
Proof.
  intros Hf Hg Hlen. unfold _has_token_count_data. rewrite Hf, Hg. simpl.
  by rewrite last_n_app_ge.
Qed.

(** X2.  The quick check has no false positive, and an unreadable log probes
    negative: when it answers [True], one of the last 20 lines is a JSON
    object whose payload is an object with the type tag [token_count]. *)
Theorem probe_positive_sound (fs : session_fs) (f : string) :
  (readlines fs f = Raise OSError → _has_token_count_data fs f = Ret false) ∧
  (_has_token_count_data fs f = Ret true →
   ∃ lines line kv payload,
     readlines fs f = Ret lines ∧ line ∈ last_n 20 lines ∧
     json_loads (strip line) = Some (PDict kv) ∧
     default (PDict []) (assoc "payload" kv) = PDict payload ∧
     assoc "type" payload = Some (PStr "token_count")).
Proof.
  unfold _has_token_count_data. split; [by intros ->|].
  intros Hprobe. apply try_except_Ret_inv in Hprobe; [|done].
  destruct (readlines fs f) as [lines|]; [|done]. simpl in Hprobe.
  destruct (first_hit _ _) as [[[|]|]|] eqn:Hhit; try done.
  apply first_hit_Some_inv in Hhit as (line & Hin & Hline).
  exists lines, line.
  destruct (has_token_count_line_cases line)
    as [[Hn _]|[[_ (kv & payload & Hd & Hp & Ht)]|[Hr _]]]; [congruence| |congruence].
  exists kv, payload. split; [done|]. split; [|done].
  apply list_elem_of_In, in_rev, list_elem_of_In. done.
Qed.

Lemma first_hit_parse_probe lines d :
  first_hit parse_line lines = Ret (Some d) →
  first_hit has_token_count_line lines = Ret (Some true).
Proof.
  induction lines as [|line lines IH]; simpl; [done|].
  destruct (parse_line_cases line) as [[-> Hshape]|[-> _]]; [|done]. simpl.
  destruct (snapshot_of_line line) as [d'|] eqn:Hsnap.
  - intros _. by rewrite (snapshot_line_probes _ _ Hsnap).
  - intros Hrest.
    destruct (has_token_count_line_cases line) as [[-> _]|[[-> _]|[_ Hbad]]];
      [by apply IH|done|done].
Qed.

(** X3.  On a log of at most 20 lines the quick check has no false negative:
    whenever the extractor finds a snapshot, the quick check answers
    [True]. *)
Theorem extract_implies_probe (fs : session_fs) (f : string) (lines : list string)
    (d : pyval) :
  readlines fs f = Ret lines → (length lines ≤ 20)%nat →
  parse_session_file fs f = Ret (Some d) →
  _has_token_count_data fs f = Ret true.
Proof.
  unfold parse_session_file, _has_token_count_data. intros -> Hlen Hparse.
  apply try_except_Ret_inv in Hparse; [|done]. simpl in *.
  by rewrite last_n_short, (first_hit_parse_probe _ _ Hparse).
Qed.

Lemma parse_session_file_inv (fs : session_fs) (f : string) (d : pyval) :
  parse_session_file fs f = Ret (Some d) →
  qualifies d = true ∧
  ∃ lines line,
    readlines fs f = Ret lines ∧ line ∈ lines ∧ json_loads (strip line) = Some d.
Proof.
  unfold parse_session_file. intros Hparse.
  apply try_except_Ret_inv in Hparse; [|done].
  destruct (readlines fs f) as [lines|]; [|done]. simpl in Hparse.
  apply first_hit_Some_inv in Hparse as (line & Hin & Hline).
  destruct (parse_line_cases line) as [[Hsnap _]|[Hraise _]]; [|congruence].
  rewrite Hsnap in Hline. injection Hline as Hline.
  apply snapshot_of_line_inv in Hline as [Hd Hq].
  split; [done|]. exists lines, line. split; [done|]. split; [|done].
  apply list_elem_of_In, in_rev, list_elem_of_In. done.
Qed.

(** X4.  Whatever the file holds, a record the extractor returns is the
    decoding of one of its lines, is a usage snapshot (type tag
    [token_count], [rate_limits] present) and is truthy, so that
    [get_usage_summary] takes the branch of line 154 only for [None]. *)
Theorem parse_session_file_result (fs : session_fs) (f : string) (d : pyval) :
  parse_session_file fs f = Ret (Some d) →
  qualifies d = true ∧ py_truthy d = true ∧
  ∃ lines line,
    readlines fs f = Ret lines ∧ line ∈ lines ∧ json_loads (strip line) = Some d.
Proof.
  intros [Hq Hline]%parse_session_file_inv.
  split; [done|]. split; [by apply qualifies_truthy|done].
Qed.


(** X6.  A last line that is JSON but neither malformed nor an object with an
    object payload makes the quick check and the extractor raise
    [AttributeError]: neither [except] clause catches it. *)
Theorem ill_shaped_last_line_raises (fs : session_fs) (f : string)
    (lines : list string) (line : string) :
  readlines fs f = Ret (lines ++ [line]) → ¬ well_shaped line →
  _has_token_count_data fs f = Raise AttributeError ∧
  parse_session_file fs f = Raise AttributeError.
Proof.
  intros Hf Hshape. unfold _has_token_count_data, parse_session_file.
  rewrite Hf. simpl. split.
  - change 20%nat with (S 19). rewrite last_n_snoc, rev_app_distr. simpl.
    destruct (has_token_count_line_cases line)
      as [[_ Hplain]|[[_ (kv & payload & Hd & Hp & _)]|[-> _]]]; [| |done].
    + by apply not_usage_event_well_shaped in Hplain.
    + destruct Hshape. right. exists kv. split; [done|].
      destruct (assoc "payload" kv) as [p|]; [|by left].
      right. exists payload. simpl in Hp. by subst p.
  - rewrite rev_app_distr. simpl.
    by destruct (parse_line_cases line) as [[_ ?]|[-> _]].
Qed.

End Probe.

(** ** More on the scanner *)

Section Scan.
Context `{RT : PyRuntime}.

Lemma with_keys_snd (key : string → res Z) files keyed :
  with_keys key files = Ret keyed → keyed.*2 = files.
Proof.
  revert keyed. induction files as [|f files IH]; simpl; intros keyed Hk.
  - by injection Hk as <-.
  - destruct (key f) as [k|]; [|done]. simpl in Hk.
    destruct (with_keys key files) as [ks|]; [|done]. simpl in Hk.
    injection Hk as <-. rewrite fmap_cons. simpl. by rewrite (IH ks).
Qed.

Lemma with_keys_raise (key : string → res Z) before g after e :
  Forall (fun f => returns (key f)) before → key g = Raise e →
  with_keys key (before ++ g :: after) = Raise e.
Proof.
  intros Hbefore Hg. induction Hbefore as [|f before [k Hk] _ IH]; simpl.
  - by rewrite Hg.
  - by rewrite Hk, IH.
Qed.

Lemma probe_loop_prefix fs cands probed r :
  probe_loop fs cands = (probed, r) →
  probed `prefix_of` cands ∧ ∀ f, r = Ret (Some f) → f ∈ cands.
Proof.
  revert probed r. induction cands as [|c cands IH]; simpl; intros probed r Hloop.
  - injection Hloop as <- <-. split; [done|]. by intros f [=].
  - destruct (_has_token_count_data fs c) as [[|]|e].
    + injection Hloop as <- <-. split.
      * apply prefix_cons, prefix_nil.
      * intros f [= <-]. by left.
    + destruct (probe_loop fs cands) as [probed' r'].
      injection Hloop as <- <-. destruct (IH _ _ eq_refl) as [Hpre Hin].
      split; [by apply prefix_cons|]. intros f Hf. right. by apply Hin.
    + injection Hloop as <- <-. split; [apply prefix_cons, prefix_nil|by intros f [=]].
Qed.

(** X7.  The scanner returns [None] exactly when the session directory is
    absent or holds no matching file: with at least one candidate it returns
    a file or raises. *)
Theorem find_latest_session_file_none_iff (fs : session_fs) :
  find_latest_session_file fs = Ret None ↔
  sessions_dir_exists fs = false ∨ glob_rollouts fs = [].
Proof.
  unfold find_latest_session_file, find_latest_session_file_probing. split.
  - destruct (sessions_dir_exists fs); simpl; [|by left].
    destruct (glob_rollouts fs) as [|f files] eqn:Hglob; [by right|].
    destruct (with_keys _ _) as [keyed|] eqn:Hkeys; [|done].
    destruct (probe_loop _ _) as [probed [[g|]|e]]; simpl; try done.
    intros Hhead. exfalso.
    assert ((sort_desc keyed).*2 ≡ₚ f :: files) as Hperm.
    { rewrite sort_desc_perm. by rewrite (with_keys_snd _ _ _ Hkeys). }
    destruct ((sort_desc keyed).*2); [|done].
    by apply Permutation_nil_l in Hperm.
  - intros [->| ->]; [done|]. by destruct (sessions_dir_exists fs).
Qed.

(** X8.  Whatever the modification times and the probes, the scanner opens at
    most ten logs, every log it opens was listed, and the file it returns was
    listed. *)
Theorem find_latest_session_file_bounded (fs : session_fs)
    (probed : list string) (r : res (option string)) :
  find_latest_session_file_probing fs = (probed, r) →
  (length probed ≤ 10)%nat ∧
  (∀ g, g ∈ probed → g ∈ glob_rollouts fs) ∧
  (∀ f, r = Ret (Some f) → f ∈ glob_rollouts fs).
Proof.
  unfold find_latest_session_file_probing.
  destruct (sessions_dir_exists fs); simpl.
  2:{ intros [= <- <-]. split; [simpl; lia|]. split; [by intros g ?%elem_of_nil|by intros f [=]]. }
  destruct (glob_rollouts fs) as [|f0 files] eqn:Hglob.
  { intros [= <- <-]. split; [simpl; lia|]. split; [by intros g ?%elem_of_nil|by intros f [=]]. }
  destruct (with_keys _ _) as [keyed|] eqn:Hkeys.
  2:{ intros [= <- <-]. split; [simpl; lia|]. split; [by intros g ?%elem_of_nil|by intros f [=]]. }
  assert ((sort_desc keyed).*2 ≡ₚ f0 :: files) as Hperm.
  { rewrite sort_desc_perm. by rewrite (with_keys_snd _ _ _ Hkeys). }
  set (sorted := (sort_desc keyed).*2) in *.
  destruct (probe_loop fs (take 10 sorted)) as [probed' r'] eqn:Hloop.
  intros [= <- <-]. destruct (probe_loop_prefix _ _ _ _ Hloop) as [Hpre Hin].
  split; [|split].
  - apply prefix_length in Hpre. rewrite length_take in Hpre. lia.
  - intros g Hg. rewrite <- Hperm. eapply subseteq_take.
    by eapply elem_of_prefix.
  - intros f Hf. rewrite <- Hperm. destruct r' as [[g|]|e]; simpl in Hf; try done.
    + injection Hf as <-. eapply subseteq_take. by apply Hin.
    + injection Hf as Hhead. by apply head_Some_elem_of.
Qed.

(** X9.  The sort computes the [stat] key of the listed logs in the order
    of the listing, before any log is probed: when [stat] fails on a listed
    log and succeeds on those listed before it, [find_latest_session_file]
    raises the error of that log and opens no file. *)
Theorem stat_failure_raises (fs : session_fs) (before after : list string)
    (g : string) (e : exn) :
  sessions_dir_exists fs = true →
  glob_rollouts fs = before ++ g :: after →
  Forall (fun f => returns (stat_mtime fs f)) before →
  stat_mtime fs g = Raise e →
  find_latest_session_file_probing fs = ([], Raise e) ∧
  find_latest_session_file fs = Raise e.
Proof.
  intros Hdir Hglob Hbefore Hstat.
  unfold find_latest_session_file, find_latest_session_file_probing.
  pose proof (with_keys_raise _ _ _ after _ Hbefore Hstat) as Hkeys.
  rewrite Hdir, Hglob. cbn [negb]. revert Hkeys.
  destruct (before ++ g :: after); intros Hkeys; [done|]. by rewrite Hkeys.
Qed.

End Scan.

(** ** More on the cache *)

Section CacheNames.
Context `{RT : PyRuntime}.

Lemma append_cons c (s t : string) : (String c s ++ t = String c (s ++ t))%string.
Proof. reflexivity. Qed.

Lemma append_nil (t : string) : (EmptyString ++ t = t)%string.
Proof. reflexivity. Qed.

Lemma string_app_assoc (s1 s2 s3 : string) :
  ((s1 ++ s2) ++ s3 = s1 ++ (s2 ++ s3))%string.
Proof.
  induction s1 as [|c s1 IH]; [done|]. by rewrite !append_cons, IH.
Qed.

Lemma replace_char_app c by_ s1 s2 :
  replace_char c by_ (s1 ++ s2)%string
  = (replace_char c by_ s1 ++ replace_char c by_ s2)%string.
Proof.
  induction s1 as [|c' s1 IH]; [done|]. rewrite append_cons. simpl.
  destruct (Ascii.eqb c c'); rewrite IH; [|done].
  by rewrite string_app_assoc.
Qed.

Lemma replace_char_cons c by_ c' s :
  replace_char c by_ (String c' s)
  = if Ascii.eqb c c' then (by_ ++ replace_char c by_ s)%string
    else String c' (replace_char c by_ s).
Proof. reflexivity. Qed.

(** The three replacements amount to one pass over the identity. *)
Lemma safe_email_sanitize email : safe_email email = sanitize email.
Proof.
  unfold safe_email. induction email as [|c email IH]; [done|].
  change (sanitize (String c email)) with (sanitize_char c ++ sanitize email)%string.
  rewrite <- IH. unfold sanitize_char. rewrite !(Ascii.eqb_sym c).
  rewrite replace_char_cons.
  destruct (Ascii.eqb_spec "@" c) as [<-|Hat].
  { rewrite !replace_char_app. reflexivity. }
  rewrite replace_char_cons.
  destruct (Ascii.eqb_spec "." c) as [<-|Hdot].
  { rewrite !replace_char_app. reflexivity. }
  rewrite replace_char_cons.
  destruct (Ascii.eqb_spec "+" c) as [<-|Hplus]; reflexivity.
Qed.

Lemma has_char_app c s1 s2 :
  has_char c (s1 ++ s2)%string ↔ has_char c s1 ∨ has_char c s2.
Proof.
  unfold has_char. induction s1 as [|c' s1 IH]; [simpl; tauto|].
  rewrite append_cons. simpl. rewrite IH. tauto.
Qed.

Lemma sanitize_char_clean c0 c : special c → ¬ has_char c (sanitize_char c0).
Proof.
  unfold sanitize_char, has_char.
  destruct (Ascii.eqb_spec c0 "@"); [intros [-> | [-> | ->]]; simpl; intuition discriminate|].
  destruct (Ascii.eqb_spec c0 "."); [intros [-> | [-> | ->]]; simpl; intuition discriminate|].
  destruct (Ascii.eqb_spec c0 "+"); [intros [-> | [-> | ->]]; simpl; intuition discriminate|].
  intros [-> | [-> | ->]]; simpl; intuition congruence.
Qed.

Lemma sanitize_clean_id s : (∀ c, special c → ¬ has_char c s) → sanitize s = s.
Proof.
  induction s as [|c0 s IH]; [done|]. intros Hclean. simpl.
  unfold sanitize_char.
  destruct (Ascii.eqb_spec c0 "@") as [->|_];
    [destruct (Hclean "@"%char); [by left|by left]|].
  destruct (Ascii.eqb_spec c0 ".") as [->|_];
    [destruct (Hclean "."%char); [by right; left|by left]|].
  destruct (Ascii.eqb_spec c0 "+") as [->|_];
    [destruct (Hclean "+"%char); [by right; right|by left]|].
  rewrite append_cons, append_nil, IH; [done|].
  intros c Hc Hin. apply (Hclean c Hc). by right.
Qed.

Lemma safe_email_no_special email c : special c → ¬ has_char c (safe_email email).
Proof.
  rewrite safe_email_sanitize. intros Hc.
  induction email as [|c0 email IH]; [by intros []|]. simpl.
  rewrite has_char_app. intros [Hin|Hin]; [|done].
  by apply (sanitize_char_clean c0 c).
Qed.

Lemma safe_email_idem email : safe_email (safe_email email) = safe_email email.
Proof.
  rewrite (safe_email_sanitize (safe_email email)). apply sanitize_clean_id.
  intros c. apply safe_email_no_special.
Qed.

Lemma safe_email_nonempty email : email ≠ ""%string → safe_email email ≠ ""%string.
Proof.
  rewrite safe_email_sanitize. destruct email as [|c email]; [done|]. intros _.
  simpl. unfold sanitize_char.
  destruct (Ascii.eqb c "@"); [done|]. destruct (Ascii.eqb c "."); [done|].
  by destruct (Ascii.eqb c "+").
Qed.

(** X10.  The file name made from an identity never contains [@], [.] or [+];
    an identity without these characters is its own file name stem, and
    sanitizing twice changes nothing more. *)
Theorem safe_email_clean (email : string) :
  (∀ c, special c → ¬ has_char c (safe_email email)) ∧
  ((∀ c, special c → ¬ has_char c email) → safe_email email = email) ∧
  safe_email (safe_email email) = safe_email email.
Proof.
  split; [intros c; apply safe_email_no_special|]. split.
  - rewrite safe_email_sanitize. apply sanitize_clean_id.
  - apply safe_email_idem.
Qed.

End CacheNames.

Section CacheMore.
Context `{RT : PyRuntime}.
Variable usage_cache_dir : string.

(** X11.  The sanitized form of a non-empty identity is itself a non-empty
    identity with the same cache file, and a read for it gives what a read
    for the original gives, on every cache: the [email] member of the entry
    is not compared.  When the identity contains [@], [.] or [+] the two
    identities differ. *)
Theorem sanitized_identity_shares_entry (now : Z) (email : string) (st : cache_fs) :
  email ≠ ""%string →
  safe_email email ≠ ""%string ∧
  cache_file usage_cache_dir (safe_email email) = cache_file usage_cache_dir email ∧
  load_usage_data usage_cache_dir now (safe_email email) st
    = load_usage_data usage_cache_dir now email st ∧
  ((∃ c, special c ∧ has_char c email) → safe_email email ≠ email).
Proof.
  intros Hne. pose proof (safe_email_nonempty _ Hne) as Hne'.
  assert (cache_file usage_cache_dir (safe_email email)
          = cache_file usage_cache_dir email) as Hfile.
  { unfold cache_file. by rewrite safe_email_idem. }
  split; [done|]. split; [done|]. split.
  - unfold load_usage_data. rewrite Hfile.
    by rewrite (proj2 (String.eqb_neq _ _) Hne), (proj2 (String.eqb_neq _ _) Hne').
  - intros (c & Hc & Hin) Heq. apply (safe_email_no_special email c Hc).
    by rewrite Heq.
Qed.

(** X12.  A write for one identity leaves the reads of every identity with
    another cache file as they were. *)
Theorem save_usage_data_frame (now written : Z) (email other : string)
    (usage_data : pyval) (st : cache_fs) :
  cache_file usage_cache_dir other ≠ cache_file usage_cache_dir email →
  load_usage_data usage_cache_dir now other
    (save_usage_data usage_cache_dir written email usage_data st).2
  = load_usage_data usage_cache_dir now other st.
Proof.
  intros Hother. unfold save_usage_data, fs_open_write.
  destruct (String.eqb email ""); [done|].
  destruct (has_nul _); [done|].
  destruct (bool_decide _); [done|].
  destruct (json_dump_partial _); simpl.
  all: unfold load_usage_data, fs_exists, fs_read, fs_store; simpl.
  all: by rewrite lookup_insert_ne.
Qed.

(** What a read that gives a value has found. *)
Lemma load_usage_data_value (now : Z) (email : string) (st : cache_fs) (v : pyval) :
  load_usage_data usage_cache_dir now email st = Ret v → v ≠ PNone →
  ∃ content kv stamp t,
    email ≠ ""%string ∧
    has_nul (cache_file usage_cache_dir email) = false ∧
    (cache_file usage_cache_dir email ∉ cache_denied st) ∧
    cache_files st !! cache_file usage_cache_dir email = Some content ∧
    json_loads content = Some (PDict kv) ∧
    default (PStr "") (assoc "last_updated" kv) = PStr stamp ∧
    fromisoformat stamp = Some (Naive t) ∧
    now - t ≤ day_us ∧
    v = default PNone (assoc "usage_data" kv).
Proof.
  unfold load_usage_data, fs_exists, fs_read, py_json_loads.
  set (path := cache_file usage_cache_dir email).
  destruct (String.eqb_spec email "") as [->|Hne]; [by intros [= <-]|].
  destruct (has_nul path) eqn:Hnul; [by intros [= <-]|]. cbn [negb andb].
  destruct (cache_files st !! path) as [content|] eqn:Hfile.
  2:{ rewrite bool_decide_false by (by intros [? ?]). simpl. by intros [= <-]. }
  rewrite bool_decide_true by eauto. simpl.
  destruct (bool_decide (path ∈ cache_denied st)) eqn:Hd; simpl; [by intros [= <-]|].
  apply bool_decide_eq_false in Hd.
  destruct (json_loads content) as [cache_data|] eqn:Hjson; simpl; [|by intros [= <-]].
  destruct cache_data as [| | | | | |kv]; simpl; try done.
  destruct (default (PStr "") (assoc "last_updated" kv)) as [| | | |stamp| |] eqn:Hstamp;
    simpl; try done.
  destruct (fromisoformat stamp) as [[t|t]|] eqn:Hiso; simpl;
    [|done|by intros [= <-]].
  destruct (Z.ltb_spec day_us (now - t)) as [Hold|Hfresh]; [by intros [= <-]|].
  intros [= <-] _. by exists content, kv, stamp, t.
Qed.

(** What a read finds in a well-formed entry that is not too old. *)
Lemma load_usage_data_entry (now : Z) (email : string) (st : cache_fs)
    content kv stamp t :
  email ≠ ""%string →
  has_nul (cache_file usage_cache_dir email) = false →
  cache_file usage_cache_dir email ∉ cache_denied st →
  cache_files st !! cache_file usage_cache_dir email = Some content →
  json_loads content = Some (PDict kv) →
  default (PStr "") (assoc "last_updated" kv) = PStr stamp →
  fromisoformat stamp = Some (Naive t) →
  now - t ≤ day_us →
  load_usage_data usage_cache_dir now email st = Ret (default PNone (assoc "usage_data" kv)).
Proof.
  intros Hne Hnul Hd Hfile Hjson Hstamp Hiso Hage.
  unfold load_usage_data, fs_exists, fs_read, py_json_loads.
  rewrite (proj2 (String.eqb_neq _ _) Hne), Hnul, Hfile, bool_decide_true by eauto.
  rewrite bool_decide_false by done. simpl.
  rewrite Hjson. simpl. rewrite Hstamp. simpl. rewrite Hiso. simpl.
  destruct (Z.ltb_spec day_us (now - t)); [lia|done].
Qed.

(** X13.  Freshness only decays: a value read at some time is read at every
    earlier time too, from the same cache. *)
Theorem load_usage_data_earlier (now earlier : Z) (email : string) (st : cache_fs)
    (v : pyval) :
  load_usage_data usage_cache_dir now email st = Ret v → v ≠ PNone →
  earlier ≤ now →
  load_usage_data usage_cache_dir earlier email st = Ret v.
Proof.
  intros Hload Hv Hle.
  destruct (load_usage_data_value _ _ _ _ Hload Hv)
    as (content & kv & stamp & t & Hne & Hnul & Hd & Hfile & Hjson & Hstamp & Hiso &
        Hage & ->).
  eapply load_usage_data_entry; eauto. lia.
Qed.

(** X22.  [save_usage_data] by cases.  It returns [False] and leaves the
    cache as it is for the empty identity and when the file cannot be opened
    for writing (an [OSError]).  For a non-empty identity whose file can be
    opened it returns [True] once the encoder has written the whole entry,
    and the file then holds the entry with the identity, [last_updated] set
    to the current time and the snapshot, whatever it held before.  It
    raises [ValueError], which line 110 does not catch, when the path has a
    NUL character (the cache is as it was) and when the encoder meets a
    string it cannot encode (the file is left with what was written up to
    it).  No other file changes in any case. *)
Theorem save_usage_data_written (now : Z) (email : string) (usage_data : pyval)
    (st : cache_fs) :
  let path := cache_file usage_cache_dir email in
  let entry := cache_entry now email usage_data in
  let saved := save_usage_data usage_cache_dir now email usage_data st in
  (email = ""%string ∨ (has_nul path = false ∧ path ∈ cache_denied st) →
     saved = (Ret false, st)) ∧
  (email ≠ ""%string → has_nul path = false → path ∉ cache_denied st →
     json_dump_partial entry = None →
     saved.1 = Ret true ∧ cache_files saved.2 !! path = Some (json_dumps entry)) ∧
  (email ≠ ""%string → has_nul path = true → saved = (Raise ValueError, st)) ∧
  (∀ written,
     email ≠ ""%string → has_nul path = false → path ∉ cache_denied st →
     json_dump_partial entry = Some written →
     saved.1 = Raise ValueError ∧ cache_files saved.2 !! path = Some written) ∧
  (∀ other, other ≠ path → cache_files saved.2 !! other = cache_files st !! other) ∧
  cache_denied saved.2 = cache_denied st.
Proof.
  simpl. unfold save_usage_data, fs_open_write, cache_entry.
  destruct (String.eqb_spec email "") as [->|Hne].
  { split_and!; simpl; done. }
  destruct (has_nul (cache_file usage_cache_dir email)) eqn:Hnul.
  { split_and!; simpl; try done. by intros [?|[? _]]. }
  destruct (bool_decide _) eqn:Hdenied.
  { apply bool_decide_eq_true in Hdenied. split_and!; simpl; done. }
  apply bool_decide_eq_false in Hdenied.
  destruct (json_dump_partial _) as [written|] eqn:Hdump; simpl.
  - split_and!; try done.
    + by intros [?|[_ ?]].
    + intros written' _ _ _ [= <-]. split; [done|]. apply lookup_insert_eq.
    + intros other Hother. by apply lookup_insert_ne.
  - split_and!; try done.
    + by intros [?|[_ ?]].
    + intros _ _ _ _. split; [done|]. apply lookup_insert_eq.
    + intros other Hother. by apply lookup_insert_ne.
Qed.

End CacheMore.

(** ** More on the summary *)

Section SummaryMore.
Context `{RT : PyRuntime}.
Variable usage_cache_dir : string.

(** Lines 160 to 169 on a snapshot: no exception, and the fields of the
    payload. *)
Lemma fill_summary_snapshot (now : Z) (d : pyval) :
  qualifies d = true →
  ∃ kv payload limits,
    d = PDict kv ∧ default (PDict []) (assoc "payload" kv) = PDict payload ∧
    assoc "rate_limits" payload = Some limits ∧
    fill_summary d (initial_summary now) = Ret (success_summary now payload limits).
Proof.
  destruct d as [| | | | | |kv]; try done. simpl.
  destruct (default (PDict []) (assoc "payload" kv)) as [| | | | | |payload] eqn:Hp;
    try done.
  intros [_ Hlimits]%andb_true_iff. apply bool_decide_eq_true in Hlimits as [limits Hl].
  exists kv, payload, limits. split; [done|]. split; [done|]. split; [done|].
  unfold fill_summary, success_summary, usage_of_payload. simpl. rewrite Hp. simpl.
  rewrite Hl. simpl.
  destruct (assoc "info" payload) as [[| | | | | |info]|]; simpl;
    rewrite ?andb_false_r; simpl; try done.
  destruct (assoc "total_token_usage" info) as [usage|] eqn:Husage.
  - rewrite bool_decide_true by eauto. by destruct info.
  - rewrite bool_decide_false by (by intros [? ?]). by destruct info.
Qed.

Lemma get_usage_summary_found (now now_save : Z) (email : option string)
    (fs : session_fs) (st : cache_fs) (f : string) (d : pyval) :
  find_latest_session_file fs = Ret (Some f) →
  parse_session_file fs f = Ret (Some d) →
  ∃ kv payload limits,
    d = PDict kv ∧ default (PDict []) (assoc "payload" kv) = PDict payload ∧
    assoc "rate_limits" payload = Some limits ∧
    let s := success_summary now payload limits in
    let saved := summary_save usage_cache_dir now_save email s st in
    get_usage_summary usage_cache_dir now now_save email fs st
    = (bind saved.1 (fun _ => Ret s), saved.2).
Proof.
  intros Hfind Hparse.
  destruct (parse_session_file_inv _ _ _ Hparse) as [Hq _].
  destruct (fill_summary_snapshot now d Hq) as (kv & payload & limits & -> & Hp & Hl & Hfill).
  exists kv, payload, limits. split; [done|]. split; [done|]. split; [done|].
  unfold get_usage_summary. rewrite Hfind, Hparse.
  rewrite (qualifies_truthy _ Hq). simpl negb. cbv iota. simpl default.
  rewrite Hfill. cbv zeta. destruct email as [e|]; [|done]. unfold summary_save.
  destruct (String.eqb_spec e "") as [->|Hne]; [done|]. simpl negb. simpl andb.
  fold (cached_snapshot (success_summary now payload limits)).
  by destruct (save_usage_data _ _ _ _ _) as [r st'].
Qed.

(** X14.  When the scanner has chosen a log: without a snapshot in it the
    summary fails with the message of line 155 and the cache is untouched;
    with a snapshot the cache is what [save_usage_data] leaves for the given
    identity, and the call returns the summary with status [success], the
    [rate_limits] of the payload and the [total_token_usage] of its [info]
    (an empty dict without one) unless [save_usage_data] raises, whose
    exception it then raises: it returns that summary without an identity
    and whenever the write returns, [True] or [False]. *)
Theorem get_usage_summary_outcome (now now_save : Z) (email : option string)
    (fs : session_fs) (st : cache_fs) (f : string) :
  find_latest_session_file fs = Ret (Some f) →
  (parse_session_file fs f = Ret None →
   get_usage_summary usage_cache_dir now now_save email fs st
   = (Ret (fail_with no_usage_data_msg (initial_summary now)), st)) ∧
  (∀ d, parse_session_file fs f = Ret (Some d) →
   ∃ kv payload limits,
     d = PDict kv ∧ default (PDict []) (assoc "payload" kv) = PDict payload ∧
     assoc "rate_limits" payload = Some limits ∧
     let s := success_summary now payload limits in
     let saved := summary_save usage_cache_dir now_save email s st in
     (get_usage_summary usage_cache_dir now now_save email fs st).2 = saved.2 ∧
     (∀ b, saved.1 = Ret b →
        (get_usage_summary usage_cache_dir now now_save email fs st).1 = Ret s) ∧
     (∀ e, saved.1 = Raise e →
        (get_usage_summary usage_cache_dir now now_save email fs st).1 = Raise e) ∧
     (email = None →
        get_usage_summary usage_cache_dir now now_save email fs st = (Ret s, st))).
Proof.
  intros Hfind. split.
  - intros Hparse. unfold get_usage_summary. by rewrite Hfind, Hparse.
  - intros d Hparse.
    destruct (get_usage_summary_found now now_save email fs st f d Hfind Hparse)
      as (kv & payload & limits & Hd & Hp & Hl & Hget).
    exists kv, payload, limits. split; [done|]. split; [done|]. split; [done|].
    cbv zeta in *. rewrite Hget. simpl. split; [done|].
    split; [by intros b ->|]. split; [by intros e ->|]. by intros ->.
Qed.

(** X15.  The identity has no influence on the summary returned: a summary
    returned for an identity is the one returned without identity, and an
    exception raised without identity is raised with every identity.  The
    identity decides only whether line 173 raises: when the call without
    identity returns a summary and the call with an identity raises, the
    exception is that of [save_usage_data] for this identity. *)
Theorem get_usage_summary_email_irrelevant (now now_save : Z) (email : option string)
    (fs : session_fs) (st : cache_fs) :
  (∀ s, (get_usage_summary usage_cache_dir now now_save email fs st).1 = Ret s →
        (get_usage_summary usage_cache_dir now now_save None fs st).1 = Ret s) ∧
  (∀ e, (get_usage_summary usage_cache_dir now now_save None fs st).1 = Raise e →
        (get_usage_summary usage_cache_dir now now_save email fs st).1 = Raise e) ∧
  (∀ s e, (get_usage_summary usage_cache_dir now now_save None fs st).1 = Ret s →
          (get_usage_summary usage_cache_dir now now_save email fs st).1 = Raise e →
          ∃ identity, email = Some identity ∧
            (save_usage_data usage_cache_dir now_save identity (cached_snapshot s) st).1
            = Raise e).
Proof.
  destruct (find_latest_session_file fs) as [[f|]|e0] eqn:Hfind;
    [|unfold get_usage_summary; rewrite Hfind; simpl;
      (split; [done|split; [done|by intros s e [= <-]]])..].
  destruct (parse_session_file fs f) as [[d|]|e0] eqn:Hparse;
    [|unfold get_usage_summary; rewrite Hfind, Hparse; simpl;
      (split; [done|split; [done|by intros s e [= <-]]])..].
  destruct (get_usage_summary_found now now_save email fs st f d Hfind Hparse)
    as (kv & payload & limits & Hd & Hp & Hl & ->).
  destruct (get_usage_summary_found now now_save None fs st f d Hfind Hparse)
    as (kv' & payload' & limits' & Hd' & Hp' & Hl' & ->).
  rewrite Hd in Hd'. injection Hd' as <-.
  rewrite Hp in Hp'. injection Hp' as <-. rewrite Hl in Hl'. injection Hl' as <-.
  simpl. split; [|split; [done|]].
  - intros s. by destruct (summary_save _ _ _ _ _).1; simpl; intros [= <-].
  - intros s e [= <-]. destruct email as [identity|]; simpl; [|done].
    destruct (save_usage_data _ _ _ _ _).1 eqn:Hsave; simpl; [done|].
    intros [= <-]. by exists identity.
Qed.

Lemma get_usage_summary_cases (now now_save : Z) (email : option string)
    (fs : session_fs) (st : cache_fs) :
  (∀ s st', get_usage_summary usage_cache_dir now now_save email fs st = (Ret s, st') →
     (status s = "failed"%string ∧
      (errors s = [no_session_file_msg] ∨ errors s = [no_usage_data_msg]) ∧
      token_usage s = PDict [] ∧ rate_limits s = PDict [] ∧ st' = st) ∨
     (status s = "success"%string ∧ errors s = [])) ∧
  (∀ e st', get_usage_summary usage_cache_dir now now_save email fs st = (Raise e, st') →
     (st' = st ∧
      (find_latest_session_file fs = Raise e ∨
       ∃ f, find_latest_session_file fs = Ret (Some f) ∧
            parse_session_file fs f = Raise e)) ∨
     (∃ f d identity s,
        find_latest_session_file fs = Ret (Some f) ∧
        parse_session_file fs f = Ret (Some d) ∧
        fill_summary d (initial_summary now) = Ret s ∧
        email = Some identity ∧
        save_usage_data usage_cache_dir now_save identity (cached_snapshot s) st
        = (Raise e, st'))).
Proof.
  destruct (find_latest_session_file fs) as [[f|]|e0] eqn:Hfind.
  2:{ unfold get_usage_summary. rewrite Hfind.
      split; [intros s st' [= <- <-]; left; eauto 10|done]. }
  2:{ unfold get_usage_summary. rewrite Hfind.
      split; [done|]. intros e st' [= <- <-]. left. by split; [|left]. }
  destruct (parse_session_file fs f) as [[d|]|e0] eqn:Hparse.
  - destruct (parse_session_file_inv _ _ _ Hparse) as [Hq _].
    destruct (fill_summary_snapshot now d Hq)
      as (kv0 & payload0 & limits0 & Hd0 & Hp0 & Hl0 & Hfill).
    destruct (get_usage_summary_found now now_save email fs st f d Hfind Hparse)
      as (kv & payload & limits & Hd & Hp & Hl & ->).
    rewrite Hd in Hd0. injection Hd0 as <-.
    rewrite Hp in Hp0. injection Hp0 as <-. rewrite Hl in Hl0. injection Hl0 as <-.
    unfold summary_save. destruct email as [identity|]; simpl.
    2:{ split; [|done]. intros s st' [= <- <-]. by right. }
    destruct (save_usage_data _ _ _ _ _) as [[b|e0] st0] eqn:Hsave; simpl.
    + split; [|done]. intros s st' [= <- <-]. by right.
    + split; [done|]. intros e st' [= <- <-]. right.
      by exists f, d, identity, (success_summary now payload limits).
  - unfold get_usage_summary. rewrite Hfind, Hparse.
    split; [intros s st' [= <- <-]; left; eauto 10|done].
  - unfold get_usage_summary. rewrite Hfind, Hparse.
    split; [done|]. intros e st' [= <- <-]. left. split; [done|]. right. by exists f.
Qed.

(** X16.  A summary [get_usage_summary] returns has failed, with exactly one
    of the two messages, empty [token_usage] and [rate_limits] and the cache
    untouched, or has succeeded, with no error; its status is never left at
    [checking...].  When the call raises, either the scanner or the extractor
    raised that exception and the cache is untouched, or the summary had
    succeeded and [save_usage_data] raised it for the given identity, and the
    cache is as that call left it. *)
Theorem get_usage_summary_invariant (now now_save : Z) (email : option string)
    (fs : session_fs) (st : cache_fs) :
  (∀ s st', get_usage_summary usage_cache_dir now now_save email fs st = (Ret s, st') →
     (status s = "failed"%string ∧
      (errors s = [no_session_file_msg] ∨ errors s = [no_usage_data_msg]) ∧
      token_usage s = PDict [] ∧ rate_limits s = PDict [] ∧ st' = st) ∨
     (status s = "success"%string ∧ errors s = [])) ∧
  (∀ e st', get_usage_summary usage_cache_dir now now_save email fs st = (Raise e, st') →
     (st' = st ∧
      (find_latest_session_file fs = Raise e ∨
       ∃ f, find_latest_session_file fs = Ret (Some f) ∧
            parse_session_file fs f = Raise e)) ∨
     (∃ f d identity s,
        find_latest_session_file fs = Ret (Some f) ∧
        parse_session_file fs f = Ret (Some d) ∧
        fill_summary d (initial_summary now) = Ret s ∧
        email = Some identity ∧
        save_usage_data usage_cache_dir now_save identity (cached_snapshot s) st
        = (Raise e, st'))).
Proof. apply get_usage_summary_cases. Qed.


End SummaryMore.

(** ** More on rendering *)

Section RenderingMore.
Context `{RT : PyRuntime}.

Lemma py_le_330_returns v : is_Some (number_of v) ↔ returns (py_le_330 v).
Proof.
  unfold returns. destruct v; simpl; split; intros [x Hx]; try done; eauto.
Qed.

Lemma py_format_returns fmt v :
  (∃ n, number_of v = Some n ∧ returns (fmt n)) ↔ returns (py_format fmt v).
Proof.
  unfold py_format. destruct (number_of v) as [n|] eqn:Hn.
  - split; [by intros (? & [= <-] & ?)|]. intros Hret. by exists n.
  - split; [by intros (? & ? & _)|]. destruct v; by intros [? ?].
Qed.

(** A window renders exactly when its three fields are numbers or absent and
    within the ranges of the runtime. *)
Lemma format_limit_returns now limit :
  renderable_window limit ∧ window_in_range now limit ↔ returns (format_limit now limit).
Proof.
  unfold format_limit. destruct limit as [| | | | | |kv]; simpl;
    try (split; [intros _; by eexists|done]).
  unfold numeric_member, py_reset_time, py_format.
  rewrite (py_le_330_returns (default (PInt 0) (assoc "window_minutes" kv))).
  unfold returns.
  destruct (number_of (default (PInt 0) (assoc "resets_in_seconds" kv))) as [reset|];
    simpl; [|split; [by intros ((_ & [? ?] & _) & _)|by intros [? ?]]].
  destruct (strftime_reset now reset) as [reset_time|e] eqn:Hreset; simpl.
  2:{ split; [|by intros [? ?]]. intros (_ & _ & Hrange).
      destruct (Hrange reset eq_refl) as [? ?]. congruence. }
  destruct (py_le_330 _) as [is_short|]; simpl;
    [|split; [by intros ((_ & _ & [? ?]) & _)|by intros [? ?]]].
  destruct (number_of (default (PInt 0) (assoc "used_percent" kv))) as [used|];
    simpl.
  2:{ split; [by intros (([? ?] & _) & _)|].
      destruct (default (PInt 0) (assoc "used_percent" kv)); by intros [? ?]. }
  destruct (format_fixed1 used) as [used_text|e] eqn:Hused; simpl.
  2:{ split; [|by intros [? ?]]. intros (_ & Hrange & _).
      destruct (Hrange used eq_refl) as [? ?]. congruence. }
  split; [intros _; by eexists|]. intros _.
  split; [repeat split; by eexists|].
  split; intros n [= <-]; by eexists.
Qed.

Lemma format_limits_returns now items :
  Forall renderable_window items.*2 → Forall (window_in_range now) items.*2 →
  returns (format_limits now items).
Proof.
  induction items as [|[key limit] items IH]; simpl; intros Hall Hrange; [by eexists|].
  apply Forall_cons in Hall as [Hlimit Hall].
  apply Forall_cons in Hrange as [Hlimit' Hrange].
  destruct (proj1 (format_limit_returns now limit) (conj Hlimit Hlimit')) as [block ->].
  destruct (IH Hall Hrange) as [blocks ->]. by eexists.
Qed.

Lemma format_limits_raises now items key limit :
  (key, limit) ∈ items → ¬ renderable_window limit →
  ∃ e, format_limits now items = Raise e.
Proof.
  induction items as [|[key' limit'] items IH]; intros Hin Hbad;
    [by apply elem_of_nil in Hin|].
  simpl. destruct (format_limit now limit') as [block|e] eqn:Hblock; [|by eexists].
  apply elem_of_cons in Hin as [[= <- <-]|Hin].
  - destruct Hbad. apply (format_limit_returns now). by eexists.
  - destruct (IH Hin Hbad) as [e ->]. by eexists.
Qed.

Lemma format_count_returns kv k :
  numeric_member kv k → count_in_range kv k →
  returns (py_format format_commas (default (PInt 0) (assoc k kv))).
Proof.
  intros [n Hn] Hrange. apply py_format_returns. exists n. split; [done|]. by apply Hrange.
Qed.

Lemma format_token_usage_returns usage :
  renderable_usage usage → usage_in_range usage →
  returns (if py_truthy usage then format_token_usage usage else Ret []).
Proof.
  intros [->|(kv & -> & Hi & Hc & Ho & Ht)]; [by eexists|].
  intros (Hi' & Hc' & Ho' & Ht').
  destruct (py_truthy (PDict kv)); [|by eexists].
  unfold format_token_usage. simpl.
  destruct (format_count_returns _ _ Hi Hi') as [? ->].
  destruct (format_count_returns _ _ Hc Hc') as [? ->].
  destruct (format_count_returns _ _ Ho Ho') as [? ->].
  destruct (format_count_returns _ _ Ht Ht') as [? ->].
  by eexists.
Qed.

(** X18.  Rendering never raises on a failed summary, whatever its other
    fields hold; on another summary it returns when the token usage is falsy
    or an object whose four counts are numbers or absent, each one the
    runtime formats, and the rate limits are falsy or an object whose
    windows are not objects (skipped) or objects whose three fields are
    numbers or absent, with a percentage the runtime formats and a reset
    time it can add to the clock. *)
Theorem format_usage_summary_returns (now : Z) (s : summary) :
  status s = "failed"%string ∨
  (renderable_usage (token_usage s) ∧ usage_in_range (token_usage s) ∧
   (py_truthy (rate_limits s) = false ∨
    ∃ items, rate_limits s = PDict items ∧ Forall renderable_window items.*2 ∧
             Forall (window_in_range now) items.*2)) →
  returns (format_usage_summary now s).
Proof.
  unfold format_usage_summary. intros [->|(Husage & Hcounts & Hlimits)]; [by eexists|].
  destruct (String.eqb (status s) "failed"); [by eexists|].
  destruct (format_token_usage_returns _ Husage Hcounts) as [usage_lines ->]. simpl.
  destruct Hlimits as [->|(items & -> & Hall & Hrange)]; [by eexists|].
  destruct (py_truthy (PDict items)); [|by eexists]. simpl.
  destruct (format_limits_returns now items Hall Hrange) as [blocks ->]. by eexists.
Qed.

(** X19.  Rendering raises on a summary that did not fail when one of its
    windows is an object with a field that is present and not a number, a
    JSON null for one: the exception is not caught. *)
Theorem format_usage_summary_raises (now : Z) (s : summary) items key limit :
  status s ≠ "failed"%string → rate_limits s = PDict items →
  (key, limit) ∈ items → ¬ renderable_window limit →
  ∃ e, format_usage_summary now s = Raise e.
Proof.
  intros Hstatus Hlimits Hin Hbad. unfold format_usage_summary.
  rewrite (proj2 (String.eqb_neq _ _) Hstatus), Hlimits.
  destruct (if py_truthy (token_usage s) then _ else _) as [usage_lines|e];
    [|by eexists].
  simpl. destruct items as [|item items]; [by apply elem_of_nil in Hin|]. cbn [bind].
  destruct (format_limits_raises now _ _ _ Hin Hbad) as [e ->]. by eexists.
Qed.

End RenderingMore.

(** ** More on the identity helper *)

Section IdentityMore.
Context `{RT : PyRuntime}.

(** X23.  [extract_email_from_auth] returns the [email] member on a
    structure whose [tokens.id_token] is a dotted string whose second
    segment, with one to four [=] appended, decodes from base64 to a JSON
    object with that member; a value it returns is such a member or [None].
    It returns [None] when no bytes reach [json.loads] (missing keys, wrong
    types, fewer than two segments, invalid base64) and when [json.loads]
    rejects the bytes with a [ValueError].  An exception it raises was
    raised by [json.loads] on the decoded bytes and is one neither [except]
    clause names; when [json.loads] raises no such exception on them, the
    function returns. *)
Theorem extract_email_from_auth_outcome (auth_data : pyval) :
  (∀ email, carries_email auth_data email → extract_email_from_auth auth_data = Ret email) ∧
  (∀ v, extract_email_from_auth auth_data = Ret v →
        v = PNone ∨ carries_email auth_data v) ∧
  ((∀ decoded, ¬ token_bytes auth_data decoded) →
     extract_email_from_auth auth_data = Ret PNone) ∧
  (∀ decoded e, token_bytes auth_data decoded → json_loads_bytes decoded = Raise e →
                subclass e ValueError = true →
                extract_email_from_auth auth_data = Ret PNone) ∧
  (∀ e, extract_email_from_auth auth_data = Raise e →
        ∃ decoded, token_bytes auth_data decoded ∧
                   json_loads_bytes decoded = Raise e ∧ uncaught e = true) ∧
  ((∀ decoded e, token_bytes auth_data decoded → json_loads_bytes decoded = Raise e →
                 uncaught e = false) →
     returns (extract_email_from_auth auth_data)).
Proof.
  assert (Hbytes : ∀ decoded, token_bytes auth_data decoded →
            extract_email_from_auth auth_data
            = try_except
                (try_except
                   (token_data <- json_loads_bytes decoded;;
                    py_get token_data "email" PNone)
                   [ValueError; JSONDecodeError] (Ret PNone))
                [KeyError; TypeError; AttributeError] (Ret PNone)).
  { intros decoded (kv & tokens & id_token & -> & Htokens & Hid & Hlen & Hb64).
    unfold extract_email_from_auth, py_b64decode, pad_base64. simpl.
    rewrite Htokens. simpl. rewrite Hid. simpl.
    destruct (String.eqb_spec id_token "") as [->|_]; [simpl in Hlen; lia|]. simpl.
    destruct (split_char "." id_token) as [|head [|second rest]]; simpl in *; try lia.
    by rewrite Hb64. }
  pose proof (extract_email_from_auth_cases auth_data) as Hcases.
  split; [|split; [|split; [|split; [|split]]]].
  - intros email (kv & tokens & id_token & decoded & claims &
                  -> & Htokens & Hid & Hlen & Hb64 & Hjson & Hemail).
    rewrite (Hbytes decoded) by (by exists kv, tokens, id_token).
    rewrite Hjson. simpl. by rewrite Hemail.
  - intros v Hv. destruct Hcases as [(email & Hret & Hcase)|(decoded & e & Hraise & _)];
      [|congruence].
    rewrite Hret in Hv. by injection Hv as <-.
  - intros Hnone.
    destruct Hcases as [(email & Hret & [->|Hcarries])|(decoded & e & _ & Hb & _)];
      [done| |by destruct (Hnone decoded)].
    destruct Hcarries as (kv & tokens & id_token & decoded & claims &
                          Hkv & Htokens & Hid & Hlen & Hb64 & _).
    destruct (Hnone decoded). by exists kv, tokens, id_token.
  - intros decoded e Hb Hjson Hsub. rewrite (Hbytes decoded Hb), Hjson.
    by destruct e.
  - intros e He. destruct Hcases as [(email & Hret & _)|(decoded & e' & Hraise & Hb & Hj & Hu)];
      [congruence|].
    rewrite Hraise in He. injection He as <-. by exists decoded.
  - intros Hcaught.
    destruct Hcases as [(email & Hret & _)|(decoded & e & _ & Hb & Hj & Hu)];
      [by exists email|].
    rewrite (Hcaught decoded e Hb Hj) in Hu. done.
Qed.

End IdentityMore.

(** ** More on the compatibility layer *)

Section CompatMore.
Context `{RT : PyRuntime}.

(** X20.  [extract_access_token_from_auth] returns the token, or [None] when
    [tokens] or [access_token] is absent; on an input that is not an object,
    or whose [tokens] is not an object, it raises [AttributeError], which its
    [except] clause does not name, where [extract_email_from_auth] returns
    [None]. *)
Theorem extract_access_token_from_auth_cases (auth_data : pyval) :
  (∀ kv, auth_data = PDict kv → assoc "tokens" kv = None →
     extract_access_token_from_auth auth_data = Ret PNone) ∧
  (∀ kv tokens, auth_data = PDict kv → assoc "tokens" kv = Some (PDict tokens) →
     extract_access_token_from_auth auth_data
     = Ret (default PNone (assoc "access_token" tokens))) ∧
  ((isinstance_dict auth_data = false ∨
    ∃ kv tokens, auth_data = PDict kv ∧ assoc "tokens" kv = Some tokens ∧
                 isinstance_dict tokens = false) →
     extract_access_token_from_auth auth_data = Raise AttributeError ∧
     extract_email_from_auth auth_data = Ret PNone).
Proof.
  unfold extract_access_token_from_auth, extract_email_from_auth.
  split; [|split].
  - intros kv -> Htokens. simpl. by rewrite Htokens.
  - intros kv tokens -> Htokens. simpl. by rewrite Htokens.
  - intros [Hnd|(kv & tokens & -> & Htokens & Hnd)].
    + by destruct auth_data.
    + simpl. rewrite Htokens. by destruct tokens.
Qed.

End CompatMore.

Section AccountSummary.
Context `{RT : PyRuntime}.
Variable usage_cache_dir : string.

(** X21.  [get_account_summary] changes the cache as [get_usage_summary]
    does and raises when it raises.  The account summary it returns carries
    the check time, status, token usage, rate limits and errors of the usage
    summary; its [email] is [Codex CLI] for a missing or empty identity and
    the identity itself otherwise, hence never empty; and it has either
    failed, with an error, empty usage and rate limits and the cache
    untouched, or succeeded, without error. *)
Theorem get_account_summary_invariant (now now_save : Z) (email : option string)
    (fs : session_fs) (st : cache_fs) :
  (get_account_summary usage_cache_dir now now_save email fs st).2
    = (get_usage_summary usage_cache_dir now now_save email fs st).2 ∧
  (∀ e, (get_account_summary usage_cache_dir now now_save email fs st).1 = Raise e ↔
        (get_usage_summary usage_cache_dir now now_save email fs st).1 = Raise e) ∧
  (∀ a st', get_account_summary usage_cache_dir now now_save email fs st = (Ret a, st') →
     (∃ s, get_usage_summary usage_cache_dir now now_save email fs st = (Ret s, st') ∧
           acc_check_time a = check_time s ∧ acc_status a = status s ∧
           acc_usage_data a = token_usage s ∧ acc_rate_limits a = rate_limits s ∧
           acc_errors a = errors s) ∧
     (email = None ∨ email = Some ""%string → acc_email a = "Codex CLI"%string) ∧
     (∀ e, email = Some e → e ≠ ""%string → acc_email a = e) ∧
     acc_email a ≠ ""%string ∧
     ((acc_status a = "failed"%string ∧ acc_errors a ≠ [] ∧
       acc_usage_data a = PDict [] ∧ acc_rate_limits a = PDict [] ∧ st' = st) ∨
      (acc_status a = "success"%string ∧ acc_errors a = []))).
Proof.
  unfold get_account_summary.
  pose proof (proj1 (get_usage_summary_cases usage_cache_dir now now_save email fs st))
    as Hcases.
  destruct (get_usage_summary _ _ _ _ _ _) as [[s|e0] st1]; simpl.
  - split; [done|]. split; [done|]. intros a st' [= <- <-]. simpl.
    split; [by exists s|]. split; [by intros [->| ->]|]. split; [|split].
    + intros e -> Hne. simpl. by rewrite (proj2 (String.eqb_neq _ _) Hne).
    + destruct email as [e|]; simpl; [|done].
      by destruct (String.eqb_spec e "").
    + destruct (Hcases s st1 eq_refl) as [(? & [Herr|Herr] & ? & ? & ?)|[? ?]];
        [left; rewrite Herr; done..|by right].
  - split; [done|]. split; [intros e; split; by intros [= ->]|]. by intros a st' [=].
Qed.

End AccountSummary.

(** ** The further properties on the examples *)

Lemma probe_reads_last_twenty_witness :
  _has_token_count_data (RT := Reference.runtime) Demo.long_log_dir "rollout-a.jsonl"
  = _has_token_count_data (RT := Reference.runtime) Demo.long_log_dir "rollout-t.jsonl".
Proof.
  apply (probe_reads_last_twenty (RT := Reference.runtime) Demo.long_log_dir
           Demo.long_log_dir "rollout-a.jsonl" "rollout-t.jsonl"
           [Demo.line_a] Demo.twenty_others).
  - reflexivity.
  - reflexivity.
  - vm_compute. lia.
Defined.

Lemma probe_positive_sound_witness :
  _has_token_count_data (RT := Reference.runtime) Demo.dangling_dir "rollout-a.jsonl"
    = Ret false ∧
  ∃ lines line kv payload,
    readlines Demo.three_logs_dir "rollout-c.jsonl" = Ret lines ∧
    line ∈ last_n 20 lines ∧
    Reference.loads (strip line) = Some (PDict kv) ∧
    default (PDict []) (assoc "payload" kv) = PDict payload ∧
    assoc "type" payload = Some (PStr "token_count").
Proof.
  split.
  - apply (proj1 (probe_positive_sound (RT := Reference.runtime) Demo.dangling_dir
                    "rollout-a.jsonl")). reflexivity.
  - apply (proj2 (probe_positive_sound (RT := Reference.runtime) Demo.three_logs_dir
                    "rollout-c.jsonl")). vm_compute. reflexivity.
Defined.

Lemma extract_implies_probe_witness :
  _has_token_count_data (RT := Reference.runtime) Demo.two_snapshots_dir "rollout-a.jsonl"
  = Ret true.
Proof.
  apply (extract_implies_probe (RT := Reference.runtime) Demo.two_snapshots_dir
           "rollout-a.jsonl" Demo.two_snapshots Demo.record_b).
  - reflexivity.
  - vm_compute. lia.
  - vm_compute. reflexivity.
Defined.

Lemma parse_session_file_result_witness :
  qualifies Demo.record_b = true ∧ py_truthy Demo.record_b = true ∧
  ∃ lines line,
    readlines Demo.two_snapshots_dir "rollout-a.jsonl" = Ret lines ∧ line ∈ lines ∧
    Reference.loads (strip line) = Some Demo.record_b.
Proof.
  apply (parse_session_file_result (RT := Reference.runtime) Demo.two_snapshots_dir
           "rollout-a.jsonl" Demo.record_b).
  vm_compute. reflexivity.
Defined.


Lemma ill_shaped_last_line_raises_witness :
  _has_token_count_data (RT := Reference.runtime) Demo.number_dir "rollout-a.jsonl"
    = Raise AttributeError ∧
  parse_session_file (RT := Reference.runtime) Demo.number_dir "rollout-a.jsonl"
    = Raise AttributeError.
Proof.
  apply (ill_shaped_last_line_raises (RT := Reference.runtime) Demo.number_dir
           "rollout-a.jsonl" [Demo.line_a] Demo.line_number).
  - reflexivity.
  - intros [Hnone|(kv & Hkv & _)].
    + vm_compute in Hnone. discriminate Hnone.
    + vm_compute in Hkv. discriminate Hkv.
Defined.

Lemma find_latest_session_file_none_iff_witness :
  find_latest_session_file (RT := Reference.runtime) no_session_dir = Ret None.
Proof.
  apply (proj2 (find_latest_session_file_none_iff (RT := Reference.runtime)
                  no_session_dir)).
  left. reflexivity.
Defined.

Lemma find_latest_session_file_bounded_witness :
  (length (find_latest_session_file_probing (RT := Reference.runtime)
             Demo.twelve_logs_dir).1 ≤ 10)%nat ∧
  (∀ g, g ∈ (find_latest_session_file_probing (RT := Reference.runtime)
               Demo.twelve_logs_dir).1 → g ∈ glob_rollouts Demo.twelve_logs_dir) ∧
  (∀ f, (find_latest_session_file_probing (RT := Reference.runtime)
           Demo.twelve_logs_dir).2 = Ret (Some f) → f ∈ glob_rollouts Demo.twelve_logs_dir).
Proof.
  apply (find_latest_session_file_bounded (RT := Reference.runtime) Demo.twelve_logs_dir).
  by destruct (find_latest_session_file_probing _).
Defined.

Lemma stat_failure_raises_witness :
  find_latest_session_file_probing (RT := Reference.runtime) Demo.removed_dir
    = ([], Raise OSError) ∧
  find_latest_session_file (RT := Reference.runtime) Demo.removed_dir = Raise OSError.
Proof.
  apply (stat_failure_raises (RT := Reference.runtime) Demo.removed_dir
           ["rollout-a.jsonl"%string] ["rollout-c.jsonl"%string] "rollout-b.jsonl" OSError).
  - reflexivity.
  - reflexivity.
  - repeat constructor. by exists 100.
  - reflexivity.
Defined.

Lemma safe_email_clean_witness :
  ¬ has_char "@" (safe_email "user+tag@x.com") ∧ safe_email "user_x" = "user_x"%string.
Proof.
  split.
  - apply (proj1 (safe_email_clean "user+tag@x.com")). by left.
  - apply (proj1 (proj2 (safe_email_clean "user_x"))).
    intros c [-> | [-> | ->]]; vm_compute; intuition discriminate.
Defined.

Lemma sanitized_identity_shares_entry_witness :
  safe_email "user@x.com" ≠ ""%string ∧
  cache_file "cache" (safe_email "user@x.com") = cache_file "cache" "user@x.com" ∧
  load_usage_data (RT := Reference.runtime) "cache" (Demo.noon + Demo.hour_us)
    (safe_email "user@x.com") Demo.stored_cache
  = load_usage_data (RT := Reference.runtime) "cache" (Demo.noon + Demo.hour_us)
      "user@x.com" Demo.stored_cache ∧
  ((∃ c, special c ∧ has_char c "user@x.com") → safe_email "user@x.com" ≠ "user@x.com"%string).
Proof.
  apply (sanitized_identity_shares_entry (RT := Reference.runtime) "cache"
           (Demo.noon + Demo.hour_us) "user@x.com" Demo.stored_cache).
  discriminate.
Defined.

Lemma save_usage_data_frame_witness :
  load_usage_data (RT := Reference.runtime) "cache" (Demo.noon + Demo.hour_us) "user@x.com"
    (save_usage_data (RT := Reference.runtime) "cache" (Demo.noon + Demo.hour_us)
       "other@x.com" (PDict []) Demo.stored_cache).2
  = load_usage_data (RT := Reference.runtime) "cache" (Demo.noon + Demo.hour_us)
      "user@x.com" Demo.stored_cache.
Proof.
  apply (save_usage_data_frame (RT := Reference.runtime) "cache").
  vm_compute. discriminate.
Defined.

Lemma load_usage_data_earlier_witness :
  load_usage_data (RT := Reference.runtime) "cache" Demo.noon "user@x.com"
    Demo.stored_cache = Ret Demo.snapshot.
Proof.
  apply (load_usage_data_earlier (RT := Reference.runtime) "cache"
           (Demo.noon + 24 * Demo.hour_us) Demo.noon).
  - vm_compute. reflexivity.
  - discriminate.
  - vm_compute. discriminate.
Defined.

Lemma get_usage_summary_outcome_witness :
  ∃ kv payload limits,
    Demo.record_b = PDict kv ∧ default (PDict []) (assoc "payload" kv) = PDict payload ∧
    assoc "rate_limits" payload = Some limits ∧
    let s := success_summary (RT := Reference.runtime) Demo.noon payload limits in
    let saved := summary_save (RT := Reference.runtime) "cache" Demo.noon
                   (Some "user@x.com"%string) s empty_cache in
    Demo.cached_run.2 = saved.2 ∧
    (∀ b, saved.1 = Ret b → Demo.cached_run.1 = Ret s) ∧
    (∀ e, saved.1 = Raise e → Demo.cached_run.1 = Raise e) ∧
    (Some "user@x.com"%string = None → Demo.cached_run = (Ret s, empty_cache)).
Proof.
  apply (proj2 (get_usage_summary_outcome (RT := Reference.runtime) "cache" Demo.noon
                  Demo.noon (Some "user@x.com"%string) Demo.two_snapshots_dir
                  empty_cache "rollout-a.jsonl" ltac:(vm_compute; reflexivity))
           Demo.record_b).
  vm_compute. reflexivity.
Defined.

Lemma get_usage_summary_email_irrelevant_witness :
  (get_usage_summary (RT := Reference.runtime) "cache" Demo.noon Demo.noon None
     Demo.two_snapshots_dir empty_cache).1 = Ret Demo.cached_summary ∧
  ∃ identity, Some Demo.nul_identity = Some identity ∧
    (save_usage_data (RT := Reference.runtime) "cache" Demo.noon identity
       (cached_snapshot Demo.cached_summary) empty_cache).1 = Raise ValueError.
Proof.
  split.
  - apply (proj1 (get_usage_summary_email_irrelevant (RT := Reference.runtime) "cache"
                    Demo.noon Demo.noon (Some "user@x.com"%string)
                    Demo.two_snapshots_dir empty_cache)).
    vm_compute. reflexivity.
  - apply (proj2 (proj2 (get_usage_summary_email_irrelevant (RT := Reference.runtime)
                           "cache" Demo.noon Demo.noon (Some Demo.nul_identity)
                           Demo.two_snapshots_dir empty_cache))).
    + vm_compute. reflexivity.
    + vm_compute. reflexivity.
Defined.

Lemma get_usage_summary_invariant_witness :
  ((status Demo.cached_summary = "failed"%string ∧
    (errors Demo.cached_summary = [no_session_file_msg] ∨
     errors Demo.cached_summary = [no_usage_data_msg]) ∧
    token_usage Demo.cached_summary = PDict [] ∧
    rate_limits Demo.cached_summary = PDict [] ∧ Demo.cached_run.2 = empty_cache) ∨
   (status Demo.cached_summary = "success"%string ∧ errors Demo.cached_summary = [])) ∧
  ((empty_cache = empty_cache ∧
    (find_latest_session_file (RT := Reference.runtime) Demo.two_snapshots_dir
       = Raise ValueError ∨
     ∃ f, find_latest_session_file (RT := Reference.runtime) Demo.two_snapshots_dir
            = Ret (Some f) ∧
          parse_session_file (RT := Reference.runtime) Demo.two_snapshots_dir f
            = Raise ValueError)) ∨
   (∃ f d identity s,
      find_latest_session_file (RT := Reference.runtime) Demo.two_snapshots_dir
        = Ret (Some f) ∧
      parse_session_file (RT := Reference.runtime) Demo.two_snapshots_dir f
        = Ret (Some d) ∧
      fill_summary d (initial_summary (RT := Reference.runtime) Demo.noon) = Ret s ∧
      Some Demo.nul_identity = Some identity ∧
      save_usage_data (RT := Reference.runtime) "cache" Demo.noon identity
        (cached_snapshot s) empty_cache = (Raise ValueError, empty_cache))).
Proof.
  split.
  - apply (proj1 (get_usage_summary_invariant (RT := Reference.runtime) "cache"
                    Demo.noon Demo.noon (Some "user@x.com"%string)
                    Demo.two_snapshots_dir empty_cache)
             Demo.cached_summary Demo.cached_run.2).
    vm_compute. reflexivity.
  - apply (proj2 (get_usage_summary_invariant (RT := Reference.runtime) "cache"
                    Demo.noon Demo.noon (Some Demo.nul_identity)
                    Demo.two_snapshots_dir empty_cache)
             ValueError empty_cache).
    vm_compute. reflexivity.
Defined.


Lemma format_usage_summary_returns_witness :
  returns (format_usage_summary (RT := Reference.runtime) Demo.noon Demo.both_windows).
Proof.
  apply (format_usage_summary_returns (RT := Reference.runtime)).
  right. split; [|split].
  - right. eexists. split; [reflexivity|]. repeat split; by eexists.
  - repeat split; intros n [= <-]; by eexists.
  - right. eexists. split; [reflexivity|]. split.
    + repeat constructor; by eexists.
    + repeat constructor; intros n [= <-]; by eexists.
Defined.

Lemma format_usage_summary_raises_witness :
  ∃ e, format_usage_summary (RT := Reference.runtime) Demo.noon Demo.null_window = Raise e.
Proof.
  apply (format_usage_summary_raises (RT := Reference.runtime) Demo.noon Demo.null_window
           [("primary", PDict Demo.five_hours);
            ("secondary", PDict [("window_minutes", PNone)])]%string
           "secondary" (PDict [("window_minutes", PNone)]%string)).
  - discriminate.
  - reflexivity.
  - right. left.
  - intros (_ & _ & [n Hn]). discriminate Hn.
Defined.

Lemma extract_access_token_from_auth_cases_witness :
  extract_access_token_from_auth
    (PDict [("tokens", PDict [("access_token", PStr "tok")])]) = Ret (PStr "tok") ∧
  extract_access_token_from_auth PNone = Raise AttributeError ∧
  extract_email_from_auth (RT := Reference.runtime) PNone = Ret PNone.
Proof.
  split.
  - apply (proj1 (proj2 (extract_access_token_from_auth_cases
                           (RT := Reference.runtime)
                           (PDict [("tokens", PDict [("access_token", PStr "tok")])])))
             [("tokens", PDict [("access_token", PStr "tok")])]%string
             [("access_token", PStr "tok")]%string); reflexivity.
  - apply (proj2 (proj2 (extract_access_token_from_auth_cases
                           (RT := Reference.runtime) PNone))).
    left. reflexivity.
Defined.

Lemma get_account_summary_invariant_witness :
  acc_email Demo.failed_account = "Codex CLI"%string ∧
  acc_status Demo.failed_account = "failed"%string ∧
  acc_errors Demo.failed_account ≠ [].
Proof.
  destruct (proj2 (proj2 (get_account_summary_invariant (RT := Reference.runtime)
                            "cache" Demo.noon Demo.noon None no_session_dir empty_cache))
              Demo.failed_account Demo.account_run.2 ltac:(vm_compute; reflexivity))
    as (_ & Hdefault & _ & _ & [(Hstatus & Herrors & _)|[Hstatus _]]).
  - split; [apply Hdefault; by left|]. split; [exact Hstatus|exact Herrors].
  - vm_compute in Hstatus. discriminate Hstatus.
Defined.

Lemma save_usage_data_written_witness :
  ((save_usage_data (RT := Reference.runtime) "cache" Demo.noon "user@x.com"
      Demo.snapshot empty_cache).1 = Ret true ∧
   cache_files Demo.stored_cache !! cache_file "cache" "user@x.com"
   = Some (Reference.dumps
             (cache_entry (RT := Reference.runtime) Demo.noon "user@x.com"
                Demo.snapshot))) ∧
  save_usage_data (RT := Reference.runtime) "cache" Demo.noon Demo.nul_identity
    Demo.snapshot empty_cache = (Raise ValueError, empty_cache) ∧
  save_usage_data (RT := Reference.runtime) "cache" Demo.noon "user@x.com"
    Demo.snapshot Demo.denied_cache = (Ret false, Demo.denied_cache).
Proof.
  split; [|split].
  - apply (proj1 (proj2 (save_usage_data_written (RT := Reference.runtime) "cache"
                           Demo.noon "user@x.com" Demo.snapshot empty_cache))).
    + discriminate.
    + vm_compute. reflexivity.
    + vm_compute. discriminate.
    + reflexivity.
  - apply (proj1 (proj2 (proj2 (save_usage_data_written (RT := Reference.runtime) "cache"
                                  Demo.noon Demo.nul_identity Demo.snapshot
                                  empty_cache)))).
    + discriminate.
    + vm_compute. reflexivity.
  - apply (proj1 (save_usage_data_written (RT := Reference.runtime) "cache" Demo.noon
                    "user@x.com" Demo.snapshot Demo.denied_cache)).
    right. split; vm_compute; reflexivity.
Defined.

Lemma extract_email_from_auth_outcome_witness :
  extract_email_from_auth (RT := Reference.runtime) Demo.auth_unpadded
    = Ret (PStr "a@b.c") ∧
  extract_email_from_auth (RT := Reference.runtime) Demo.auth = Ret (PStr "a@b.c") ∧
  extract_email_from_auth (RT := Reference.runtime) (PDict []) = Ret PNone ∧
  ∃ decoded, token_bytes (RT := Reference.runtime) Demo.nested_auth decoded ∧
             Reference.loads_bytes decoded = Raise RecursionError ∧
             uncaught RecursionError = true.
Proof.
  split; [|split; [|split]].
  - apply (proj1 (extract_email_from_auth_outcome (RT := Reference.runtime)
                    Demo.auth_unpadded)).
    eexists _, _, _, _, _. split; [reflexivity|]. split; [reflexivity|].
    split; [reflexivity|]. split; [vm_compute; lia|].
    split; [vm_compute; reflexivity|]. split; vm_compute; reflexivity.
  - apply (proj1 (extract_email_from_auth_outcome (RT := Reference.runtime) Demo.auth)).
    eexists _, _, _, _, _. split; [reflexivity|]. split; [reflexivity|].
    split; [reflexivity|]. split; [vm_compute; lia|].
    split; [vm_compute; reflexivity|]. split; vm_compute; reflexivity.
  - apply (proj1 (proj2 (proj2 (extract_email_from_auth_outcome
                                  (RT := Reference.runtime) (PDict []))))).
    intros decoded (kv & tokens & id_token & Hkv & Htokens & _).
    injection Hkv as <-. discriminate Htokens.
  - apply (proj1 (proj2 (proj2 (proj2 (proj2 (extract_email_from_auth_outcome
                                                (RT := Reference.runtime)
                                                Demo.nested_auth)))))).
    vm_compute. reflexivity.
Defined.
